(** * goatgames_daily_report: the ROI report and the DingTalk client

    A shallow embedding of [daily_report_weekday.py]: the month-to-date
    summary, the trailing-window coefficients and the weekly table of the
    report script, and the [DingTalkBot] webhook client.

    Conventions of the embedding.
    - A date ([datetime.date], a [datetime64] cell of [end_date]) is its day
      number, days since 1970-01-01, in the proleptic Gregorian calendar;
      [date - timedelta(days=k)] is [d - k] and date comparison is [<=?].
      The cells of [end_date] are whole days (the script selects a day by
      [data['end_date'] == index_day]).
    - A date string built by an f-string, [f"{y}-{m}-{d}"], is the triple of
      the three integers it prints; [to_datetime] parses it.
    - The columns of the feed hold numbers (the script rounds and formats
      them), so a column sum is a numpy scalar. A [float64] is an IEEE 754
      binary64 value, the [spec_float] of the standard library at precision
      53: every operation rounds to the nearest value, ties to even, a result
      too large is an infinity, and a division by zero gives an infinity or
      not-a-number (numpy warns and goes on, it does not raise). A column is
      summed in row order; numpy may group the additions otherwise, which no
      statement below relies on.
    - A [DataFrame] keeps the index label of every row: the frame built from
      the feed has labels 0, 1, 2, ... and a selection keeps them. A feed
      with no row makes a frame with no column, and the script stops at its
      first column access ([load]).
    - An exception ends the computation: [Raise e].
    - The script's globals [data] and [today] are arguments; the fetch of the
      feed, the rendering of the images and the [logger.debug] lines of the
      client are left out. *)

From Stdlib Require Import ZArith QArith List String Ascii Bool Lia DecimalString SpecFloat.
Import ListNotations.
Open Scope Z_scope.

(** ** Exceptions *)

Inductive exn : Type :=
| TypeError
| KeyError
| ValueError
| JSONDecodeError
| AttributeError
| ConnectionError.

Inductive result (A : Type) : Type :=
| Return (a : A)
| Raise (e : exn).

Arguments Return {A} a.
Arguments Raise {A} e.

Definition bind {A B : Type} (r : result A) (k : A -> result B) : result B :=
  match r with
  | Return a => k a
  | Raise e => Raise e
  end.

Declare Scope py_scope.
Delimit Scope py_scope with py.
Notation "x <- c ;; k" := (bind c (fun x => k))
  (at level 61, c at next level, right associativity) : py_scope.

(** ** The calendar of [datetime] and pandas *)

Module Calendar.

(** Day number of the civil date [y]-[m]-[d] (days since 1970-01-01). *)
Definition days_from_civil (y m d : Z) : Z :=
  let y' := if m <=? 2 then y - 1 else y in
  let era := y' / 400 in
  let yoe := y' - era * 400 in
  let mp := if m >? 2 then m - 3 else m + 9 in
  let doy := (153 * mp + 2) / 5 + d - 1 in
  let doe := yoe * 365 + yoe / 4 - yoe / 100 + doy in
  era * 146097 + doe - 719468.

(** Year, month and day of a day number. *)
Definition civil_from_days (z0 : Z) : Z * Z * Z :=
  let z := z0 + 719468 in
  let era := z / 146097 in
  let doe := z - era * 146097 in
  let yoe := (doe - doe / 1460 + doe / 36524 - doe / 146096) / 365 in
  let y := yoe + era * 400 in
  let doy := doe - (365 * yoe + yoe / 4 - yoe / 100) in
  let mp := (5 * doy + 2) / 153 in
  let d := doy - (153 * mp + 2) / 5 + 1 in
  let m := if mp <? 10 then mp + 3 else mp - 9 in
  (if m <=? 2 then y + 1 else y, m, d).

(** [date.year], [date.month], [date.day] (and [.dt.month] of a column cell). *)
Definition year (t : Z) : Z := fst (fst (civil_from_days t)).
Definition month (t : Z) : Z := snd (fst (civil_from_days t)).
Definition day (t : Z) : Z := snd (civil_from_days t).

Definition is_leap (y : Z) : bool :=
  (y mod 4 =? 0) && (negb (y mod 100 =? 0) || (y mod 400 =? 0)).

Definition days_in_month (y m : Z) : Z :=
  if m =? 2 then (if is_leap y then 29 else 28)
  else if (m =? 4) || (m =? 6) || (m =? 9) || (m =? 11) then 30
  else 31.

(** The text of [f"{y}-{m}-{d}"]: the three integers it prints. *)
Definition datestr : Type := (Z * Z * Z)%type.

(** [f"{t.year}-{t.month}-{t.day}"]. *)
Definition strftime (t : Z) : datestr := (year t, month t, day t).

(** [pd.to_datetime(s)] for such a text, and the parse pandas makes of a string
    compared with a datetime column: a calendar date gives its day number, a
    text that names no calendar date (day 0, a negative day) gives nothing. *)
Definition to_datetime (s : datestr) : option Z :=
  let '(y, m, d) := s in
  if (1 <=? m) && (m <=? 12) && (1 <=? d) && (d <=? days_in_month y m)
  then Some (days_from_civil y m d)
  else None.

End Calendar.

(** ** float64 values *)

Module Float64.

(** binary64: 53 bits of precision, exponents below 1024. *)
Definition prec : Z := 53.
Definition emax : Z := 1024.

Definition float : Type := spec_float.

Definition NaN : float := S754_nan.
Definition infinity (neg : bool) : float := S754_infinity neg.
Definition zero : float := S754_zero false.

Definition is_nan (x : float) : bool :=
  match x with S754_nan => true | _ => false end.

Definition is_finite (x : float) : bool :=
  match x with S754_zero _ | S754_finite _ _ _ => true | _ => false end.

(** [x == 0] on floats: the two zeros. *)
Definition is_zero (x : float) : bool :=
  match x with S754_zero _ => true | _ => false end.

Definition fadd (x y : float) : float := SFadd prec emax x y.

Definition fmul (x y : float) : float := SFmul prec emax x y.

(** numpy's true division, the [/] of the script: its operands are the
    [numpy.float64] (or [numpy.int64]) scalars that [Series.sum()] returns, so
    a zero divisor gives [nan] (0/0) or an infinity with a RuntimeWarning,
    where the division of two Python numbers would raise ZeroDivisionError. *)
Definition fdiv (x y : float) : float := SFdiv prec emax x y.

(** The float of an integer, and the float a decimal numeral [n/d] of the
    feed reads as (the nearest one, for [n] and [d] below 2^53). *)
Definition of_Z (z : Z) : float := binary_normalize prec emax z 0 false.

Definition decimal (n d : Z) : float := fdiv (of_Z n) (of_Z d).

(** Nearest integer, ties to the even one. *)
Definition rint (q : Q) : Z :=
  let n := Qnum q in
  let d := Zpos (Qden q) in
  let f := n / d in
  let r := n mod d in
  if 2 * r <? d then f
  else if d <? 2 * r then f + 1
  else if Z.even f then f else f + 1.

(** [numpy.rint]: the nearest integer as a float; a float with no fraction
    bit, a zero, an infinity and not-a-number stay. *)
Definition np_rint (x : float) : float :=
  match x with
  | S754_finite s m e =>
      if 0 <=? e then x
      else
        let n := rint (Zpos m # Pos.pow 2 (Z.to_pos (- e))) in
        if n =? 0 then S754_zero s
        else binary_normalize prec emax (if s then - n else n) 0 false
  | _ => x
  end.

(** [round(x, ndigits)] of a [numpy.float64]: numpy multiplies by the power
    of ten, takes [rint] and divides by the power of ten, each step in
    binary64. *)
Definition round (x : float) (ndigits : nat) : float :=
  let p := of_Z (10 ^ Z.of_nat ndigits) in
  fdiv (np_rint (fmul x p)) p.

(** [Series.sum()]: pandas skips the missing cells ([skipna=True]); the sum
    of no cell is 0. *)
Definition sum (xs : list float) : float :=
  fold_left (fun acc x => if is_nan x then acc else fadd acc x) xs zero.

End Float64.

Import Calendar Float64.

(** ** The feed as a DataFrame *)

(** One row of the feed (the columns the report reads). *)
Record row : Type := mkRow {
  end_date : Z;
  cost : float;
  install : Z;
  pay_sum_1 : float;
  pay_sum_3 : float;
  pay_sum_7 : float;
  roi_1 : float;
  roi_3 : float;
  roi_7 : float
}.

(** A frame or a column: cells with their index labels, in order. *)
Definition indexed (A : Type) : Type := list (nat * A).

(** [pd.DataFrame(res)] for a feed with rows: labels 0, 1, 2, ... in feed
    order. *)
Definition DataFrame (res : list row) : indexed row :=
  combine (seq 0 (List.length res)) res.

(** Lines 330-334: [data = get_df()] and the two [pd.to_datetime] of its date
    columns. A feed with no row makes a frame with no column at all, and
    [data['start_date']] raises [KeyError]; a feed with rows makes the frame
    the report reads. *)
Definition load (res : list row) : result (indexed row) :=
  match res with
  | [] => Raise KeyError
  | _ :: _ => Return (DataFrame res)
  end.

(** [df[mask]]: the rows where the mask holds, labels kept. *)
Definition select (mask : row -> bool) (df : indexed row) : indexed row :=
  filter (fun ir => mask (snd ir)) df.

(** [df[name]]: one column, labels kept. *)
Definition column {A : Type} (f : row -> A) (df : indexed row) : indexed A :=
  map (fun ir => (fst ir, f (snd ir))) df.

Definition values {A : Type} (s : indexed A) : list A := map snd s.

(** [s[k]] on a column with an integer index: the cell labelled [k], and
    [KeyError] when no cell has that label. *)
Definition at_label {A : Type} (s : indexed A) (k : nat) : result A :=
  match find (fun ia => Nat.eqb (fst ia) k) s with
  | Some ia => Return (snd ia)
  | None => Raise KeyError
  end.

(** [df[name].sum()]. *)
Definition col_sum (f : row -> float) (df : indexed row) : float :=
  Float64.sum (values (column f df)).

(** ** The report *)

Module Report.

Section Engine.

(** [data] is the frame made of the feed; [today] is the day the script runs. *)
Variable data : indexed row.
Variable today : Z.

(** Line 335: the rows whose month number is that of today. *)
Definition this_month_data : indexed row :=
  select (fun r => month (end_date r) =? month today) data.

(** Lines 337-344: the two masks, each written twice in the script (over and
    under the division bar). *)
Definition three_one_window : indexed row :=
  select (fun r => (end_date r <=? today - 3) && (end_date r >=? today - 17)) data.

Definition seven_three_window : indexed row :=
  select (fun r => (end_date r <=? today - 7) && (end_date r >=? today - 21)) data.

Definition three_one_coefficient : float :=
  fdiv (col_sum pay_sum_3 three_one_window) (col_sum pay_sum_1 three_one_window).

Definition seven_three_coefficient : float :=
  fdiv (col_sum pay_sum_7 seven_three_window) (col_sum pay_sum_3 seven_three_window).

(** Line 348. *)
Definition total_1roi : float :=
  fdiv (col_sum pay_sum_1 this_month_data) (col_sum cost this_month_data).

(** Lines 349-357. The cut-off is a text made of [today.day-6]; the column is
    compared with it, and pandas raises [TypeError] when the text is no date. *)
Definition total_7roi_calculator : result float :=
  if (Z.of_nat (List.length this_month_data) <? 7) then Return zero
  else
    let roi_observation_day : datestr := (year today, month today, day today - 6) in
    match to_datetime roi_observation_day with
    | None => Raise TypeError
    | Some t =>
        let roi_data := select (fun r => end_date r <=? t) this_month_data in
        Return (Float64.round (fdiv (col_sum pay_sum_7 roi_data) (col_sum cost roi_data)) 4)
    end.

(** Line 359. *)
Definition predicted_7roi : float :=
  fmul (fmul (fdiv (col_sum pay_sum_1 this_month_data) (col_sum cost this_month_data))
             three_one_coefficient)
       seven_three_coefficient.

(** *** The weekly table *)

(** One line of [my_table]; the cells are kept as the numbers the script
    formats ([{:,}], [.2%]), the date cell as the month and the day it prints. *)
Record table_row : Type := mkTableRow {
  cell_date : Z * Z;
  cell_cost : float;
  cell_install : Z;
  cell_1roi : float;
  cell_3roi : float;
  cell_7roi : float
}.

(** [data[data['end_date'] == index_day]]: a text that is no date equals no cell. *)
Definition on_day (index_day : datestr) : indexed row :=
  select (fun r => match to_datetime index_day with
                   | Some t => end_date r =? t
                   | None => false
                   end) data.

(** Lines 383-390: the masks of the line [i]. *)
Definition index_three_one_window (i : nat) : indexed row :=
  select (fun r => (end_date r <=? today - (Z.of_nat (7 - i) + 2))
                   && (end_date r >=? today - (Z.of_nat (7 - i) + 16))) data.

Definition index_seven_three_window (i : nat) : indexed row :=
  select (fun r => (end_date r <=? today - (Z.of_nat (7 - i) + 6))
                   && (end_date r >=? today - (Z.of_nat (7 - i) + 20))) data.

Definition index_three_one_coefficient (i : nat) : float :=
  fdiv (col_sum pay_sum_3 (index_three_one_window i))
       (col_sum pay_sum_1 (index_three_one_window i)).

Definition index_seven_three_coefficient (i : nat) : float :=
  fdiv (col_sum pay_sum_7 (index_seven_three_window i))
       (col_sum pay_sum_3 (index_seven_three_window i)).

(** [pd.to_datetime(index_day).date()]. *)
Definition parsed_date (index_day : datestr) : result Z :=
  match to_datetime index_day with
  | Some t => Return t
  | None => Raise ValueError
  end.

(** Lines 373-400: the body of [for i in range(7)], up to
    [my_table.append(one_row)]. Every cell is read at the label [7-i]. *)
Definition one_row (i : nat) : result table_row :=
  (let index_date := today - Z.of_nat (7 - i) in
   let index_day := strftime index_date in
   index_day_cost <- at_label (column cost (on_day index_day)) (7 - i) ;;
   index_day_install <- at_label (column install (on_day index_day)) (7 - i) ;;
   index_day_1roi <- at_label (column roi_1 (on_day index_day)) (7 - i) ;;
   d3 <- parsed_date index_day ;;
   index_predicted_3roi <-
     (if d3 <=? today - 2
      then at_label (column roi_3 (on_day index_day)) (7 - i)
      else Return (fmul index_day_1roi (index_three_one_coefficient i))) ;;
   d7 <- parsed_date index_day ;;
   index_predicted_7roi <-
     (if d7 <=? today - 6
      then at_label (column roi_7 (on_day index_day)) (7 - i)
      else Return (fmul (fmul index_day_1roi (index_three_one_coefficient i))
                        (index_seven_three_coefficient i))) ;;
   Return (mkTableRow (month index_date, day index_date)
                      (Float64.round index_day_cost 2)
                      index_day_install
                      index_day_1roi
                      index_predicted_3roi
                      index_predicted_7roi))%py.

(** The loop: the rows are appended one after the other, and an exception in
    one iteration ends the run. *)
Fixpoint table_loop (range : list nat) (my_table : list table_row)
  : result (list table_row) :=
  match range with
  | [] => Return my_table
  | i :: rest =>
      match one_row i with
      | Return r => table_loop rest (my_table ++ [r])
      | Raise e => Raise e
      end
  end.

Definition my_table : result (list table_row) := table_loop (seq 0 7) [].

End Engine.

End Report.

(** ** Bytes, digests and encodings of the standard library *)

Module Codec.

(** [s.encode('utf-8')]: a string is kept as its UTF-8 bytes. *)
Definition encode (s : string) : list Z :=
  map (fun c => Z.of_nat (nat_of_ascii c)) (list_ascii_of_string s).

(** [str(n)] of an integer. *)
Definition str (n : Z) : string := DecimalString.NilZero.string_of_int (Z.to_int n).

(** *** hashlib.sha256 (FIPS 180-4), on 32-bit words kept in [Z] *)

Definition word (x : Z) : Z := x mod 2 ^ 32.

Definition rotr (n x : Z) : Z := Z.lor (Z.shiftr x n) (word (Z.shiftl x (32 - n))).

Definition choose (e f g : Z) : Z :=
  Z.lxor (Z.land e f) (Z.land (Z.lxor e (2 ^ 32 - 1)) g).

Definition majority (a b c : Z) : Z :=
  Z.lxor (Z.lxor (Z.land a b) (Z.land a c)) (Z.land b c).

Definition big_sigma0 (a : Z) : Z := Z.lxor (Z.lxor (rotr 2 a) (rotr 13 a)) (rotr 22 a).
Definition big_sigma1 (e : Z) : Z := Z.lxor (Z.lxor (rotr 6 e) (rotr 11 e)) (rotr 25 e).
Definition small_sigma0 (x : Z) : Z := Z.lxor (Z.lxor (rotr 7 x) (rotr 18 x)) (Z.shiftr x 3).
Definition small_sigma1 (x : Z) : Z := Z.lxor (Z.lxor (rotr 17 x) (rotr 19 x)) (Z.shiftr x 10).

Definition is_prime (n : Z) : bool :=
  forallb (fun d => negb (n mod Z.of_nat d =? 0)) (seq 2 (Z.to_nat n - 2)).

(** The first sixty-four primes, 2 to 311. *)
Definition primes : list Z :=
  Eval vm_compute in filter is_prime (map Z.of_nat (seq 2 310)).

(** Integer cube root below [2 * bit], one bit at a time. *)
Fixpoint cube_root (bits : nat) (bit n acc : Z) : Z :=
  match bits with
  | O => acc
  | S bits' =>
      let c := acc + bit in
      cube_root bits' (bit / 2) n (if c * c * c <=? n then c else acc)
  end.

(** The round constants: the first 32 bits of the fractional parts of the
    cube roots of the primes. *)
Definition round_constants : list Z :=
  Eval vm_compute in map (fun p => word (cube_root 40 (2 ^ 39) (p * 2 ^ 96) 0)) primes.

(** The initial hash value: the same of the square roots of the first eight. *)
Definition initial_hash : list Z :=
  Eval vm_compute in map (fun p => word (Z.sqrt (p * 2 ^ 64))) (firstn 8 primes).

(** Big-endian bytes of a number, [n] of them. *)
Fixpoint be_bytes (n : nat) (x : Z) : list Z :=
  match n with
  | O => []
  | S n' => (x / 256 ^ Z.of_nat n') mod 256 :: be_bytes n' x
  end.

Definition pad (msg : list Z) : list Z :=
  let len := Z.of_nat (List.length msg) in
  msg ++ [128] ++ repeat 0 (Z.to_nat ((55 - len) mod 64)) ++ be_bytes 8 (8 * len).

(** The 32-bit big-endian words of a byte string. *)
Fixpoint words_of (bs : list Z) : list Z :=
  match bs with
  | a :: b :: c :: d :: rest => ((a * 256 + b) * 256 + c) * 256 + d :: words_of rest
  | _ => []
  end.

(** The message schedule, newest word first: [n] more words after [w]. *)
Fixpoint schedule (n : nat) (w : list Z) : list Z :=
  match n with
  | O => w
  | S n' =>
      schedule n'
        (word (small_sigma1 (nth 1 w 0) + nth 6 w 0 + small_sigma0 (nth 14 w 0) + nth 15 w 0)
         :: w)
  end.

Definition round_step (h : list Z) (kw : Z * Z) : list Z :=
  match h with
  | [a; b; c; d; e; f; g; hh] =>
      let t1 := hh + big_sigma1 e + choose e f g + fst kw + snd kw in
      let t2 := big_sigma0 a + majority a b c in
      [word (t1 + t2); a; b; c; word (d + t1); e; f; g]
  | _ => h
  end.

Definition compress (h : list Z) (block : list Z) : list Z :=
  let w := rev (schedule 48 (rev block)) in
  map (fun xy => word (fst xy + snd xy))
      (combine h (fold_left round_step (combine round_constants w) h)).

Fixpoint blocks (n : nat) (ws : list Z) : list (list Z) :=
  match n with
  | O => []
  | S n' => firstn 16 ws :: blocks n' (skipn 16 ws)
  end.

Definition sha256 (msg : list Z) : list Z :=
  let ws := words_of (pad msg) in
  flat_map (be_bytes 4)
           (fold_left compress (blocks (List.length ws / 16) ws) initial_hash).

(** *** hmac.new(key, msg, digestmod=hashlib.sha256).digest() (RFC 2104) *)

Definition hmac_sha256 (key msg : list Z) : list Z :=
  let k0 := if (64 <? Z.of_nat (List.length key)) then sha256 key else key in
  let k := k0 ++ repeat 0 (64 - List.length k0) in
  sha256 (map (Z.lxor 92) k ++ sha256 (map (Z.lxor 54) k ++ msg)).

(** *** base64.b64encode *)

Definition b64_alphabet : string :=
  "ABCDEFGHIJKLMNOPQRSTUVWXYZabcdefghijklmnopqrstuvwxyz0123456789+/".

Definition b64_char (i : Z) : ascii :=
  match String.get (Z.to_nat i) b64_alphabet with
  | Some c => c
  | None => "="%char
  end.

Fixpoint b64encode (bs : list Z) : string :=
  match bs with
  | [] => EmptyString
  | [a] =>
      String (b64_char (a / 4)) (String (b64_char (a mod 4 * 16)) "==")
  | [a; b] =>
      String (b64_char (a / 4))
        (String (b64_char (a mod 4 * 16 + b / 16))
           (String (b64_char (b mod 16 * 4)) "="))
  | a :: b :: c :: rest =>
      String (b64_char (a / 4))
        (String (b64_char (a mod 4 * 16 + b / 16))
           (String (b64_char (b mod 16 * 4 + c / 64))
              (String (b64_char (c mod 64)) (b64encode rest))))
  end.

(** *** urllib.parse.quote_plus *)

Definition hex_digit (i : Z) : ascii :=
  match String.get (Z.to_nat i) "0123456789ABCDEF" with
  | Some c => c
  | None => "0"%char
  end.

Definition unreserved (c : ascii) : bool :=
  let n := Z.of_nat (nat_of_ascii c) in
  ((48 <=? n) && (n <=? 57)) || ((65 <=? n) && (n <=? 90)) || ((97 <=? n) && (n <=? 122))
  || (n =? 95) || (n =? 46) || (n =? 45) || (n =? 126).

Fixpoint quote_plus (s : string) : string :=
  match s with
  | EmptyString => EmptyString
  | String c rest =>
      let n := Z.of_nat (nat_of_ascii c) in
      if unreserved c then String c (quote_plus rest)
      else if n =? 32 then String "+"%char (quote_plus rest)
      else String "%"%char (String (hex_digit (n / 16)) (String (hex_digit (n mod 16)) (quote_plus rest)))
  end.

End Codec.

(** ** The DingTalk client *)

Module DingTalk.

Import Codec.
Open Scope string_scope.

(** The values [json] reads and writes: payloads and parsed responses. *)
#[local] Unset Elimination Schemes.
Inductive json : Type :=
| JNull
| JBool (b : bool)
| JInt (z : Z)
| JFloat (x : float)
| JStr (s : string)
| JList (l : list json)
| JDict (kv : list (string * json)).
#[local] Set Elimination Schemes.

(** [d.get(key)] on a dict: the value, [None] when the key is absent. *)
Definition dict_get (kv : list (string * json)) (key : string) : json :=
  match find (fun e => String.eqb (fst e) key) kv with
  | Some e => snd e
  | None => JNull
  end.

(** [v == 0] as Python compares: the integer 0, a float zero and [False]. *)
Definition eq_zero (v : json) : bool :=
  match v with
  | JInt z => (z =? 0)%Z
  | JFloat x => is_zero x
  | JBool b => negb b
  | _ => false
  end.

(** What a caller can pass for [mobiles]; the phone numbers of a list or a
    tuple are strings. *)
Inductive pyarg : Type :=
| ANone
| ABool (b : bool)
| AInt (z : Z)
| AStr (s : string)
| ATuple (l : list string)
| AList (l : list string).

(** Truth value of [if mobiles:]. *)
Definition truthy (v : pyarg) : bool :=
  match v with
  | ANone => false
  | ABool b => b
  | AInt z => negb (z =? 0)%Z
  | AStr s => negb (String.eqb s "")
  | ATuple l | AList l => match l with [] => false | _ => true end
  end.

(** [isinstance(mobiles, list)]. *)
Definition is_list (v : pyarg) : bool :=
  match v with AList _ => true | _ => false end.

(** *** The network *)

Record http_request : Type := mkRequest {
  req_method : string;
  req_url : string;
  req_json : json;
  req_headers : list (string * string)
}.

(** A response body: text that [response.json()] parses, or text it rejects. *)
Inductive http_body : Type :=
| Json (j : json)
| NotJson (text : string).

(** The other side: the body it answers a request with, or no answer at all
    (connection refused, timeout). *)
Definition server : Type := http_request -> option http_body.

(** A computation that may POST and may raise: from the requests made so far
    to its outcome and the requests made after it. *)
Definition net (A : Type) : Type := list http_request -> result A * list http_request.

Definition ret {A : Type} (a : A) : net A := fun sent => (Return a, sent).

Definition raise {A : Type} (e : exn) : net A := fun sent => (Raise e, sent).

Definition and_then {A B : Type} (c : net A) (k : A -> net B) : net B :=
  fun sent =>
    match c sent with
    | (Return a, sent') => k a sent'
    | (Raise e, sent') => (Raise e, sent')
    end.

Declare Scope net_scope.
Delimit Scope net_scope with net.
Notation "x <-- c ;; k" := (and_then c (fun x => k))
  (at level 61, c at next level, right associativity) : net_scope.

(** [request(url=..., json=..., headers=..., method="POST")]. *)
Definition request (srv : server) (rq : http_request) : net http_body :=
  fun sent =>
    match srv rq with
    | Some body => (Return body, (sent ++ [rq])%list)
    | None => (Raise ConnectionError, (sent ++ [rq])%list)
    end.

(** [response.json()]. *)
Definition response_json (body : http_body) : net json :=
  match body with
  | Json j => ret j
  | NotJson _ => raise JSONDecodeError
  end.

(** [.get("errcode")] on what [response.json()] gave. *)
Definition get_errcode (j : json) : net json :=
  match j with
  | JDict kv => ret (dict_get kv "errcode")
  | _ => raise AttributeError
  end.

(** Run from no request made. *)
Definition run {A : Type} (c : net A) : result A * list http_request := c [].

(** *** The client *)

Record DingTalkBot : Type := mkBot {
  webhook_url : string;
  headers : list (string * string)
}.

Definition newline : string := String (ascii_of_nat 10) EmptyString.

(** Lines 30-43. *)
Definition get_sign (secret timestamp : string) : string :=
  let string_to_sign := encode (timestamp ++ newline ++ secret) in
  let hmac_code := hmac_sha256 (encode secret) string_to_sign in
  quote_plus (b64encode hmac_code).

(** Lines 18-28: [DingTalkBot(secret, webhook_url)]; [time_time] is what
    [time.time()] returns, in seconds. An empty secret is false for [if secret:]. *)
Definition init (time_time : Q) (secret : option string) (url : string) : DingTalkBot :=
  let hd := [("Content-Type", "application/json"); ("Charset", "UTF-8")] in
  match secret with
  | Some s =>
      if negb (String.eqb s "")
      then
        let timestamp := str (rint (time_time * 1000)) in
        let sign := get_sign s timestamp in
        mkBot (url ++ "&timestamp=" ++ timestamp ++ "&sign=" ++ sign) hd
      else mkBot url hd
  | None => mkBot url hd
  end.

(** The end of every send method (lines 82-88 and their six copies): the POST
    and the reading of the answer. *)
Definition deliver (srv : server) (self : DingTalkBot) (payload : json) : net bool :=
  (response <-- request srv (mkRequest "POST" (webhook_url self) payload (headers self)) ;;
   j <-- response_json response ;;
   errcode <-- get_errcode j ;;
   if eq_zero errcode then ret true else ret false)%net.

Definition send_text (srv : server) (self : DingTalkBot)
  (title content : string) (mobiles : pyarg) (is_at_all : bool) : net bool :=
  (payload <--
     (if truthy mobiles then
        match mobiles with
        | AList ms =>
            ret (JDict
                   [("msgtype", JStr "text");
                    ("title", JStr title);
                    ("text", JDict [("content",
                        JStr (fold_left (fun c mobile => c ++ "@" ++ mobile) ms content))]);
                    ("at", JDict [("atMobiles", JList (map JStr ms));
                                  ("isAtAll", JBool false)])])
        | _ => raise TypeError
        end
      else
        ret (JDict
               [("msgtype", JStr "text");
                ("title", JStr title);
                ("text", JDict [("content", JStr content)]);
                ("at", JDict [("atMobiles", JStr ""); ("isAtAll", JBool is_at_all)])])) ;;
   deliver srv self payload)%net.

Definition send_link (srv : server) (self : DingTalkBot)
  (title text message_url : string) (pic_url : option string) : net bool :=
  deliver srv self
    (JDict
       [("msgtype", JStr "link");
        ("link", JDict [("title", JStr title);
                        ("text", JStr text);
                        ("picUrl", match pic_url with Some u => JStr u | None => JNull end);
                        ("messageUrl", JStr message_url)])]).

Definition send_markdown (srv : server) (self : DingTalkBot)
  (title text : string) (mobiles : pyarg) (is_at_all : bool) : net bool :=
  (payload <--
     (if truthy mobiles then
        match mobiles with
        | AList ms =>
            ret (JDict
                   [("msgtype", JStr "markdown");
                    ("markdown", JDict [("title", JStr title);
                        ("text",
                         JStr (fold_left (fun c mobile => c ++ " @" ++ mobile) ms text))]);
                    ("at", JDict [("atMobiles", JList (map JStr ms));
                                  ("isAtAll", JBool false)])])
        | _ => raise TypeError
        end
      else
        ret (JDict
               [("msgtype", JStr "markdown");
                ("markdown", JDict [("title", JStr title); ("text", JStr text)]);
                ("at", JDict [("atMobiles", JStr ""); ("isAtAll", JBool is_at_all)])])) ;;
   deliver srv self payload)%net.

Definition send_action_card_single (srv : server) (self : DingTalkBot)
  (title text single_title single_url : string) (btn_orientation : Z) : net bool :=
  deliver srv self
    (JDict
       [("msgtype", JStr "actionCard");
        ("actionCard", JDict [("title", JStr title);
                              ("text", JStr text);
                              ("singleTitle", JStr single_title);
                              ("singleURL", JStr single_url);
                              ("btnOrientation", JInt btn_orientation)])]).

Definition send_action_card_split (srv : server) (self : DingTalkBot)
  (title text : string) (btns : list (list (string * json))) (btn_orientation : Z)
  : net bool :=
  deliver srv self
    (JDict
       [("msgtype", JStr "actionCard");
        ("actionCard", JDict [("title", JStr title);
                              ("text", JStr text);
                              ("btns", JList (map (fun btn =>
                                  JDict [("title", dict_get btn "title");
                                         ("actionURL", dict_get btn "action_url")]) btns));
                              ("btnOrientation", JInt btn_orientation)])]).

Definition send_feed_card (srv : server) (self : DingTalkBot)
  (links_msg : list (list (string * json))) : net bool :=
  deliver srv self
    (JDict
       [("msgtype", JStr "feedCard");
        ("feedCard", JDict [("links", JList (map (fun link =>
            JDict [("title", dict_get link "title");
                   ("messageURL", dict_get link "messageURL");
                   ("picURL", dict_get link "picURL")]) links_msg))])]).

Definition send_image (srv : server) (self : DingTalkBot)
  (image_base64 : string) (mobiles : pyarg) (is_at_all : bool) : net bool :=
  (payload <--
     (if truthy mobiles then
        match mobiles with
        | AList ms =>
            ret (JDict
                   [("msgtype", JStr "image");
                    ("image", JDict [("base64",
                        JStr (fold_left (fun c mobile => c ++ " @" ++ mobile) ms image_base64))]);
                    ("at", JDict [("atMobiles", JList (map JStr ms));
                                  ("isAtAll", JBool false)])])
        | _ => raise TypeError
        end
      else
        ret (JDict
               [("msgtype", JStr "image");
                ("image", JDict [("base64", JStr image_base64)]);
                ("at", JDict [("atMobiles", JStr ""); ("isAtAll", JBool is_at_all)])])) ;;
   deliver srv self payload)%net.

(** Reading a payload: the value under a path of keys. *)
Fixpoint at_path (path : list string) (j : json) : option json :=
  match path with
  | [] => Some j
  | key :: rest =>
      match j with
      | JDict kv =>
          match find (fun e => String.eqb (fst e) key) kv with
          | Some e => at_path rest (snd e)
          | None => None
          end
      | _ => None
      end
  end.

End DingTalk.

(** ** The notions of the specification *)

Module Spec.

Import Report.

(** Rows dated in the window from [lo] to [hi], both ends included. *)
Definition rows_in (lo hi : Z) (data : indexed row) : indexed row :=
  select (fun r => (lo <=? end_date r) && (end_date r <=? hi)) data.

(** Month to date: the rows dated in the calendar month of [as_of] (its
    year and its month) and not after [as_of]. *)
Definition month_to_date (as_of : Z) (data : indexed row) : indexed row :=
  select (fun r => (year (end_date r) =? year as_of)
                   && (month (end_date r) =? month as_of)
                   && (end_date r <=? as_of)) data.

(** A window coefficient: a summed column over another, on the same rows. *)
Definition ratio (num den : row -> float) (rows : indexed row) : float :=
  fdiv (col_sum num rows) (col_sum den rows).

(** The value a division by a zero sum leaves: not a number, or an infinity. *)
Definition sentinel (x : float) : Prop := is_finite x = false.

(** The four coefficients the script computes: the two of the summary and,
    for the line [i] of the table, the two of that line. *)
Inductive coefficient : Type :=
| Global_3_over_1
| Global_7_over_3
| Row_3_over_1 (i : nat)
| Row_7_over_3 (i : nat).

Definition window_of (data : indexed row) (today : Z) (c : coefficient) : indexed row :=
  match c with
  | Global_3_over_1 => three_one_window data today
  | Global_7_over_3 => seven_three_window data today
  | Row_3_over_1 i => index_three_one_window data today i
  | Row_7_over_3 i => index_seven_three_window data today i
  end.

Definition denominator_of (data : indexed row) (today : Z) (c : coefficient) : float :=
  match c with
  | Global_3_over_1 | Row_3_over_1 _ => col_sum pay_sum_1 (window_of data today c)
  | Global_7_over_3 | Row_7_over_3 _ => col_sum pay_sum_3 (window_of data today c)
  end.

Definition value_of (data : indexed row) (today : Z) (c : coefficient) : float :=
  match c with
  | Global_3_over_1 => three_one_coefficient data today
  | Global_7_over_3 => seven_three_coefficient data today
  | Row_3_over_1 i => index_three_one_coefficient data today i
  | Row_7_over_3 i => index_seven_three_coefficient data today i
  end.

(** [predicted_7roi] is computed from the two coefficients of the summary. *)
Definition feeds_prediction (c : coefficient) : bool :=
  match c with
  | Global_3_over_1 | Global_7_over_3 => true
  | _ => false
  end.


(** The date of the line [i] of the weekly table. *)
Definition row_date (as_of : Z) (i : nat) : Z := as_of - Z.of_nat (7 - i).

(** The row dated [d], read at the index label [k]. *)
Definition observed (data : indexed row) (d : Z) (k : nat) : result row :=
  at_label (select (fun r => end_date r =? d) data) k.

(** The 7-day ROI of the summary as the claim words it. *)
Definition mature_7roi (as_of : Z) (data : indexed row) : float :=
  Float64.round
    (ratio pay_sum_7 cost
       (select (fun r => end_date r <=? as_of - 6) (month_to_date as_of data))) 4.

(** No two rows of the feed have the same date. *)
Fixpoint distinct_dates (res : list row) : bool :=
  match res with
  | [] => true
  | r :: rest =>
      negb (existsb (fun r' => end_date r' =? end_date r) rest) && distinct_dates rest
  end.

(** The feed has a row for the date [d]. *)
Definition has_date (res : list row) (d : Z) : bool :=
  existsb (fun r => end_date r =? d) res.

(** *** Feeds to run the report on *)

(** A day as the end-to-end scenario has it: cost 1000, 100 installs,
    revenues 50, 70 and 90 after 1, 3 and 7 days. *)
Definition flat_row (d : Z) : row :=
  mkRow d (of_Z 1000) 100 (of_Z 50) (of_Z 70) (of_Z 90)
        (decimal 5 100) (decimal 7 100) (decimal 9 100).

(** A day with installs that paid nothing on the first day. *)
Definition unpaid_row (d : Z) : row :=
  mkRow d (of_Z 1000) 100 (of_Z 0) (of_Z 70) (of_Z 90)
        (of_Z 0) (decimal 7 100) (decimal 9 100).

(** [n] days ending on [last], the newest first, and the oldest first. *)
Definition newest_first (day_row : Z -> row) (last : Z) (n : nat) : list row :=
  map (fun k => day_row (last - Z.of_nat k)) (seq 0 n).

Definition oldest_first (day_row : Z -> row) (last : Z) (n : nat) : list row :=
  rev (newest_first day_row last n).

(** 2024-05-20 and 2024-05-06 as day numbers. *)
Definition may_20 : Z := 19863.
Definition may_6 : Z := 19849.

(** 2023-05-20, and 28 flat days up to 2024-05-20 followed by a row of that
    day of May 2023. *)
Definition may_20_2023 : Z := 19497.

Definition stale_feed : list row :=
  newest_first flat_row may_20 28 ++ [unpaid_row may_20_2023].

(** The table the script makes on 2024-05-20 from 28 flat days. *)
Definition may_20_table : list table_row :=
  Eval vm_compute in
    match my_table (DataFrame (newest_first flat_row may_20 28)) may_20 with
    | Return tbl => tbl
    | Raise _ => []
    end.

End Spec.

(** *** The send methods as one family *)

Module Client.

Import DingTalk.
Open Scope string_scope.

(** The seven send methods with their arguments. *)
Inductive call : Type :=
| Text (title content : string) (mobiles : pyarg) (is_at_all : bool)
| Link (title text message_url : string) (pic_url : option string)
| Markdown (title text : string) (mobiles : pyarg) (is_at_all : bool)
| ActionCardSingle (title text single_title single_url : string) (btn_orientation : Z)
| ActionCardSplit (title text : string) (btns : list (list (string * json))) (btn_orientation : Z)
| FeedCard (links_msg : list (list (string * json)))
| Image (image_base64 : string) (mobiles : pyarg) (is_at_all : bool).

Definition perform (srv : server) (self : DingTalkBot) (c : call) : net bool :=
  match c with
  | Text title content mobiles is_at_all =>
      send_text srv self title content mobiles is_at_all
  | Link title text message_url pic_url =>
      send_link srv self title text message_url pic_url
  | Markdown title text mobiles is_at_all =>
      send_markdown srv self title text mobiles is_at_all
  | ActionCardSingle title text single_title single_url btn_orientation =>
      send_action_card_single srv self title text single_title single_url btn_orientation
  | ActionCardSplit title text btns btn_orientation =>
      send_action_card_split srv self title text btns btn_orientation
  | FeedCard links_msg => send_feed_card srv self links_msg
  | Image image_base64 mobiles is_at_all =>
      send_image srv self image_base64 mobiles is_at_all
  end.

(** The POST a send method makes with a payload. *)
Definition post_of (self : DingTalkBot) (payload : json) : http_request :=
  mkRequest "POST" (webhook_url self) payload (headers self).

(** What a send method makes of the answer to its POST. *)
Definition verdict (answer : option http_body) : result bool :=
  match answer with
  | Some (Json (JDict kv)) => Return (eq_zero (dict_get kv "errcode"))
  | Some (Json _) => Raise AttributeError
  | Some (NotJson _) => Raise JSONDecodeError
  | None => Raise ConnectionError
  end.

(** The mention text: the tag and the number, for each number in order. *)
Fixpoint mention_text (tag : string) (mobiles : list string) : string :=
  match mobiles with
  | [] => ""
  | mobile :: rest => tag ++ mobile ++ mention_text tag rest
  end.

(** A server that accepts everything, one that answers with a page that is
    no JSON, and a client with no secret. *)
Definition accepting : server := fun _ => Some (Json (JDict [("errcode", JInt 0); ("errmsg", JStr "ok")])).

Definition bad_gateway : server := fun _ => Some (NotJson "<html>502 Bad Gateway</html>").

Definition plain_bot : DingTalkBot :=
  init 0 None "https://oapi.dingtalk.com/robot/send?access_token=t".

End Client.

(** ** The rest of the script *)

Module Script.

(** Line 298: [dt.datetime.today().date().replace(day=1)], as the date it is. *)
Definition first_day_of_month (today : Z) : datestr := (year today, month today, 1).

(** [d - relativedelta(months=1)]: the same day of the month before, cut to
    the length of that month. *)
Definition minus_one_month (d : datestr) : datestr :=
  let '(y, m, dd) := d in
  let y' := if m =? 1 then y - 1 else y in
  let m' := if m =? 1 then 12 else m - 1 in
  (y', m', Z.min dd (days_in_month y' m')).

(** Line 299: [(today.date()-relativedelta(months=1)).replace(day=1)]. *)
Definition first_day_of_last_month (today : Z) : datestr :=
  let '(y, m, _) := minus_one_month (strftime today) in (y, m, 1).

(** Lines 312-313: the two conditions of the query on the date, [ge] the
    first day of last month and [le] today, as the texts the script sends. *)
Definition date_conditions (today : Z) : datestr * datestr :=
  (first_day_of_last_month today, strftime today).

(** A date passes the two conditions. *)
Definition queried (today t : Z) : bool :=
  match to_datetime (fst (date_conditions today)),
        to_datetime (snd (date_conditions today)) with
  | Some lo, Some hi => (lo <=? t) && (t <=? hi)
  | _, _ => false
  end.

End Script.

(** ** The delivery of the report *)

Module Main.

Import DingTalk.

(** Lines 458-465 (and 467-474 for the second robot): a client is made for
    one robot, the text message is sent and then the markdown message with
    the links of the two uploaded images; the two results are dropped. *)
Definition markdown_text (df_link trend_link : string) : string :=
  ("**最近7天数据:**" ++ newline ++ "![image](" ++ df_link ++ ")" ++ newline ++ newline
   ++ "**1日ROI和7日ROI(包含预估)趋势:**" ++ newline ++ "![image](" ++ trend_link ++ ")")%string.

Definition notify (srv : server) (time_time : Q) (my_secret my_url : string)
  (content df_link trend_link : string) : net unit :=
  (let dingding := init time_time (Some my_secret) my_url in
   _ <-- send_text srv dingding "SND日报数据播报" content ANone false ;;
   _ <-- send_markdown srv dingding "最近7天数据"
           (markdown_text df_link trend_link) ANone false ;;
   ret tt)%net.

(** The two blocks one after the other, each with its robot and the time at
    which its client is made. *)
Definition main (srv : server) (robot1 robot2 : Q * string * string)
  (content df_link trend_link : string) : net unit :=
  (let '(t1, secret1, url1) := robot1 in
   let '(t2, secret2, url2) := robot2 in
   _ <-- notify srv t1 secret1 url1 content df_link trend_link ;;
   notify srv t2 secret2 url2 content df_link trend_link)%net.

End Main.

(** ** Conditions on a feed *)

Module Feed.

(** The row at the position [k] of the feed is the row dated [k] days before
    today. *)
Definition position_ok (res : list row) (today : Z) (k : nat) : bool :=
  match nth_error res k with
  | Some r => end_date r =? today - Z.of_nat k
  | None => false
  end.

(** Every row of the feed passes the two date conditions of the query. *)
Definition all_queried (today : Z) (res : list row) : bool :=
  forallb (fun r => Script.queried today (end_date r)) res.

End Feed.

(** ** What goes on the wire *)

Module Wire.

Import Codec DingTalk.

(** A byte. *)
Definition is_byte (b : Z) : bool := (0 <=? b)%Z && (b <? 256)%Z.

(** The characters of a string. *)
Definition chars (s : string) : list ascii := list_ascii_of_string s.

(** A character of the base64 alphabet, or the padding. *)
Definition is_b64 (c : ascii) : bool :=
  existsb (Ascii.eqb c) (chars b64_alphabet) || Ascii.eqb c "="%char.

(** A character that stands for itself in a query string, or a percent sign. *)
Definition url_safe (c : ascii) : bool := unreserved c || Ascii.eqb c "%"%char.

(** A server that makes every send method end the same way. *)
Definition always (srv : server) (outcome : result bool) : Prop :=
  forall rq, Client.verdict (srv rq) = outcome.

(** A server that answers every request with a JSON object. *)
Definition answers_objects (srv : server) : Prop :=
  forall rq, exists kv, srv rq = Some (Json (JDict kv)).

End Wire.

(** Case analysis on the integer tests of a goal. *)
Ltac split_tests :=
  repeat match goal with
  | |- context [ ?a <? ?b ] => destruct (Z.ltb_spec a b)
  | |- context [ ?a <=? ?b ] => destruct (Z.leb_spec a b)
  | |- context [ ?a =? ?b ] => destruct (Z.eqb_spec a b)
  | |- context [ ?a >? ?b ] => rewrite (Z.gtb_ltb a b)
  end.

(** * Properties *)

Import Report Spec.

(** ** The calendar *)

Lemma days_from_civil_from_days (t : Z) :
  days_from_civil (year t) (month t) (day t) = t.
Proof.
  unfold year, month, day, civil_from_days, days_from_civil.
  cbn [fst snd].
  cbv zeta.
  split_tests.
  all: Z.div_mod_to_equations; lia.
Qed.

Lemma civil_from_days_valid (t : Z) :
  1 <= month t <= 12 /\ 1 <= day t <= days_in_month (year t) (month t).
Proof.
  unfold year, month, day, civil_from_days, days_in_month, is_leap.
  cbn [fst snd].
  cbv zeta.
  split_tests; cbn [andb orb negb]; split_tests.
  all: Z.div_mod_to_equations; lia.
Qed.

Lemma days_from_civil_shift (y m d k : Z) :
  days_from_civil y m (d - k) = days_from_civil y m d - k.
Proof. unfold days_from_civil. cbv zeta. lia. Qed.

(** Parsing the text of a date gives the date back. *)
Lemma to_datetime_strftime (t : Z) : to_datetime (strftime t) = Some t.
Proof.
  unfold to_datetime, strftime.
  pose proof (civil_from_days_valid t) as [[Hm1 Hm2] [Hd1 Hd2]].
  rewrite (proj2 (Z.leb_le _ _) Hm1), (proj2 (Z.leb_le _ _) Hm2),
          (proj2 (Z.leb_le _ _) Hd1), (proj2 (Z.leb_le _ _) Hd2).
  cbn [andb].
  now rewrite days_from_civil_from_days.
Qed.

(** The text with the day number lowered by [k] is the date [k] days before,
    as long as the day stays in the month. *)
Lemma to_datetime_day_minus (t k : Z) :
  0 <= k < day t ->
  to_datetime (year t, month t, day t - k) = Some (t - k).
Proof.
  intros Hk.
  unfold to_datetime.
  pose proof (civil_from_days_valid t) as [[Hm1 Hm2] [Hd1 Hd2]].
  rewrite (proj2 (Z.leb_le _ _) Hm1), (proj2 (Z.leb_le _ _) Hm2).
  replace (1 <=? day t - k) with true by (symmetry; apply Z.leb_le; lia).
  replace (day t - k <=? days_in_month (year t) (month t)) with true
    by (symmetry; apply Z.leb_le; lia).
  cbn [andb].
  now rewrite days_from_civil_shift, days_from_civil_from_days.
Qed.

(** Below the first of the month the text names no date. *)
Lemma to_datetime_day_below (y m d : Z) : d < 1 -> to_datetime (y, m, d) = None.
Proof.
  intros Hd.
  unfold to_datetime.
  replace (1 <=? d) with false by (symmetry; apply Z.leb_gt; lia).
  now rewrite andb_false_r.
Qed.

(** ** Frames *)

Lemma select_ext (f g : row -> bool) (df : indexed row) :
  (forall r, f r = g r) -> select f df = select g df.
Proof.
  intros Hfg. unfold select. apply filter_ext. intros ir. apply Hfg.
Qed.

Lemma at_label_column {A : Type} (f : row -> A) (df : indexed row) (k : nat) :
  at_label (column f df) k = bind (at_label df k) (fun r => Return (f r)).
Proof.
  unfold at_label, column.
  induction df as [| [l r] df IH]; cbn [map find fst snd].
  - reflexivity.
  - destruct (Nat.eqb l k); [reflexivity | exact IH].
Qed.

(** In the frame built from the feed the label of a row is its position: a
    selection holds the label [k] exactly when the row at position [k] passes
    the mask. *)
Lemma at_label_select_combine (mask : row -> bool) (res : list row) (s k : nat) :
  at_label (select mask (combine (seq s (List.length res)) res)) (s + k) =
  match nth_error res k with
  | Some r => if mask r then Return r else Raise KeyError
  | None => Raise KeyError
  end.
Proof.
  revert s k.
  induction res as [| r res IH]; intros s k.
  - destruct k; reflexivity.
  - cbn [List.length seq combine].
    destruct k as [| k].
    + cbn [nth_error]. unfold select, at_label. cbn [filter snd].
      destruct (mask r) eqn:Hm.
      * cbn [find fst]. rewrite Nat.add_0_r, Nat.eqb_refl. reflexivity.
      * fold (select mask (combine (seq (S s) (List.length res)) res)).
        destruct (find _ _) as [[l r'] |] eqn:Hf; [| reflexivity].
        exfalso.
        apply find_some in Hf. destruct Hf as [Hin Heq].
        unfold select in Hin. apply filter_In in Hin. destruct Hin as [Hin _].
        apply in_combine_l in Hin. apply in_seq in Hin.
        cbn [fst] in Heq. apply Nat.eqb_eq in Heq. lia.
    + cbn [nth_error].
      replace (s + S k)%nat with (S s + k)%nat by lia.
      rewrite <- (IH (S s) k).
      unfold select, at_label. cbn [filter snd].
      destruct (mask r); [| reflexivity].
      cbn [find fst].
      replace (Nat.eqb s (S s + k)) with false
        by (symmetry; apply Nat.eqb_neq; lia).
      reflexivity.
Qed.

Lemma at_label_select_DataFrame (mask : row -> bool) (res : list row) (k : nat) :
  at_label (select mask (DataFrame res)) k =
  match nth_error res k with
  | Some r => if mask r then Return r else Raise KeyError
  | None => Raise KeyError
  end.
Proof. exact (at_label_select_combine mask res 0 k). Qed.

(** ** Float values *)

Lemma sum_nil : Float64.sum [] = zero.
Proof. reflexivity. Qed.

Lemma col_sum_nil (f : row -> float) : col_sum f [] = zero.
Proof. reflexivity. Qed.

Lemma fdiv_zero_divisor (x y : float) : is_zero y = true -> sentinel (fdiv x y).
Proof.
  unfold sentinel.
  destruct y as [sy | sy | | sy my ey]; cbn [is_zero]; try discriminate.
  intros _. now destruct x.
Qed.

Lemma fmul_sentinel_l (x y : float) : sentinel x -> sentinel (fmul x y).
Proof.
  unfold sentinel.
  destruct x as [sx | sx | | sx mx ex]; cbn [is_finite]; try discriminate; intros _;
    now destruct y.
Qed.

Lemma fmul_sentinel_r (x y : float) : sentinel y -> sentinel (fmul x y).
Proof.
  unfold sentinel.
  destruct y as [sy | sy | | sy my ey]; cbn [is_finite]; try discriminate; intros _;
    now destruct x.
Qed.

Lemma sentinel_not_zero (x : float) : sentinel x -> is_zero x = false.
Proof. unfold sentinel. now destruct x. Qed.

(** The rounding of [round] is that of binary64: 3/20000 times 10^4 is just
    below 1.5, so the quotient rounds to 0.0001. *)
Example round_in_binary64 : round (decimal 3 20000) 4 = decimal 1 10000.
Proof. vm_compute. reflexivity. Qed.

(** A sum of numbers can be an infinity: fifteen cells of 10^308. *)
Example sum_overflows : Float64.sum (repeat (of_Z (10 ^ 308)) 15) = infinity false.
Proof. vm_compute. reflexivity. Qed.

(** ** The coefficients *)

Lemma window_mask (lo hi t : Z) : ((t <=? hi) && (t >=? lo)) = ((lo <=? t) && (t <=? hi)).
Proof. rewrite Z.geb_leb. apply andb_comm. Qed.

Lemma three_one_window_rows (data : indexed row) (today : Z) :
  three_one_window data today = rows_in (today - 17) (today - 3) data.
Proof. apply select_ext. intros r. apply window_mask. Qed.

Lemma seven_three_window_rows (data : indexed row) (today : Z) :
  seven_three_window data today = rows_in (today - 21) (today - 7) data.
Proof. apply select_ext. intros r. apply window_mask. Qed.

Lemma index_three_one_window_rows (data : indexed row) (today : Z) (i : nat) :
  index_three_one_window data today i =
  rows_in (today - Z.of_nat (7 - i) - 16) (today - Z.of_nat (7 - i) - 2) data.
Proof.
  apply select_ext. intros r. rewrite window_mask.
  now replace (today - (Z.of_nat (7 - i) + 16)) with (today - Z.of_nat (7 - i) - 16) by lia;
    replace (today - (Z.of_nat (7 - i) + 2)) with (today - Z.of_nat (7 - i) - 2) by lia.
Qed.

Lemma index_seven_three_window_rows (data : indexed row) (today : Z) (i : nat) :
  index_seven_three_window data today i =
  rows_in (today - Z.of_nat (7 - i) - 20) (today - Z.of_nat (7 - i) - 6) data.
Proof.
  apply select_ext. intros r. rewrite window_mask.
  now replace (today - (Z.of_nat (7 - i) + 20)) with (today - Z.of_nat (7 - i) - 20) by lia;
    replace (today - (Z.of_nat (7 - i) + 6)) with (today - Z.of_nat (7 - i) - 6) by lia.
Qed.

(** ** Division by a zero sum *)

Lemma empty_window_zero_denominator (data : indexed row) (today : Z) (c : coefficient) :
  window_of data today c = [] -> is_zero (denominator_of data today c) = true.
Proof.
  intros He. destruct c; cbn [denominator_of]; rewrite He; reflexivity.
Qed.

Lemma coefficient_sentinel (data : indexed row) (today : Z) (c : coefficient) :
  is_zero (denominator_of data today c) = true -> sentinel (value_of data today c).
Proof.
  destruct c; cbn [denominator_of value_of window_of]; intros Hz;
    now apply fdiv_zero_divisor.
Qed.

(** A feed with rows makes the frame of its rows. *)
Lemma load_rows (res : list row) : res <> [] -> load res = Return (DataFrame res).
Proof. destruct res as [| r res]; [intros H; now destruct H | reflexivity]. Qed.

(** C1: on a feed with at least one row the script has its frame, and when
    the window of a coefficient (of the summary or of a line of the table)
    has no row, or the sum under the division bar is zero, the coefficient
    is a sentinel (not a number, or an infinity) and nothing is raised; and
    [predicted_7roi], computed from such a coefficient of the summary, is a
    sentinel too, not zero. *)
Theorem C1_zero_denominator_sentinel (res : list row) (today : Z) (c : coefficient) :
  res <> [] ->
  exists data,
    load res = Return data
    /\ (window_of data today c = [] \/ is_zero (denominator_of data today c) = true ->
        sentinel (value_of data today c)
        /\ (feeds_prediction c = true ->
            sentinel (predicted_7roi data today)
            /\ is_zero (predicted_7roi data today) = false)).
Proof.
  intros Hrows. exists (DataFrame res).
  split; [now apply load_rows |].
  generalize (DataFrame res) as data. clear res Hrows. intros data H.
  assert (Hz : is_zero (denominator_of data today c) = true).
  { destruct H as [He | Hz]; [now apply empty_window_zero_denominator | exact Hz]. }
  pose proof (coefficient_sentinel data today c Hz) as Hs.
  split; [exact Hs |].
  intros Hf.
  assert (Hp : sentinel (predicted_7roi data today)).
  { unfold predicted_7roi.
    destruct c; cbn [feeds_prediction] in Hf; try discriminate; cbn [value_of] in Hs.
    - apply fmul_sentinel_l. now apply fmul_sentinel_r.
    - now apply fmul_sentinel_r. }
  split; [exact Hp | now apply sentinel_not_zero].
Qed.

(** C1 as stated fails on the feed with no row: no row is dated in the
    window, and the script raises [KeyError] at its first column access
    (line 333), before any ratio is computed. *)
Lemma C1_counterexample :
  rows_in (may_20 - 17) (may_20 - 3) (DataFrame []) = []
  /\ (data <- load [] ;; Return (three_one_coefficient data may_20))%py = Raise KeyError.
Proof. split; reflexivity. Qed.

(** ** The weekly table *)

Lemma on_day_strftime (data : indexed row) (d : Z) :
  on_day data (strftime d) = select (fun r => end_date r =? d) data.
Proof. unfold on_day. now rewrite to_datetime_strftime. Qed.

Lemma parsed_date_strftime (d : Z) : parsed_date (strftime d) = Return d.
Proof. unfold parsed_date. now rewrite to_datetime_strftime. Qed.

(** One line of the table, from the row observed on its date. *)
Lemma one_row_observed (data : indexed row) (today : Z) (i : nat) :
  one_row data today i =
  bind (observed data (row_date today i) (7 - i)) (fun obs =>
    Return (mkTableRow
      (month (row_date today i), day (row_date today i))
      (Float64.round (cost obs) 2)
      (install obs)
      (roi_1 obs)
      (if row_date today i <=? today - 2 then roi_3 obs
       else fmul (roi_1 obs) (index_three_one_coefficient data today i))
      (if row_date today i <=? today - 6 then roi_7 obs
       else fmul (fmul (roi_1 obs) (index_three_one_coefficient data today i))
                 (index_seven_three_coefficient data today i)))).
Proof.
  unfold one_row, observed, row_date.
  rewrite on_day_strftime, parsed_date_strftime.
  rewrite !at_label_column.
  destruct (at_label _ (7 - i)) as [obs | e]; cbn [bind]; [| reflexivity].
  destruct (_ <=? today - 2); destruct (_ <=? today - 6); reflexivity.
Qed.

Lemma table_loop_rows (data : indexed row) (today : Z) (range : list nat) :
  forall acc tbl,
    table_loop data today range acc = Return tbl <->
    exists rows,
      Forall2 (fun i r => one_row data today i = Return r) range rows
      /\ tbl = acc ++ rows.
Proof.
  induction range as [| i range IH]; intros acc tbl; cbn [table_loop].
  - split.
    + intros [= <-]. exists []. split; [constructor | now rewrite app_nil_r].
    + intros (rows & HF & ->). inversion HF. now rewrite app_nil_r.
  - destruct (one_row data today i) as [r | e] eqn:Hr.
    + rewrite IH. split.
      * intros (rows & HF & ->). exists (r :: rows).
        split; [now constructor | now rewrite <- app_assoc].
      * intros (rows & HF & ->). inversion HF as [| i' r' range' rows' Hi HF']; subst.
        assert (r' = r) as -> by congruence.
        exists rows'. split; [exact HF' | now rewrite <- app_assoc].
    + split; [discriminate |].
      intros (rows & HF & _). inversion HF; subst. congruence.
Qed.

Lemma Forall2_nth_error_l {A B : Type} (R : A -> B -> Prop) (l : list A) (l' : list B) :
  Forall2 R l l' ->
  forall i b, nth_error l' i = Some b -> exists a, nth_error l i = Some a /\ R a b.
Proof.
  induction 1 as [| a b' l l' Hab HF IH]; intros i b Hi.
  - destruct i; discriminate.
  - destruct i as [| i]; cbn [nth_error] in *.
    + injection Hi as <-. now exists a.
    + now apply IH.
Qed.

Lemma nth_error_seq_0 (n i j : nat) : nth_error (seq 0 n) i = Some j -> j = i /\ (i < n)%nat.
Proof.
  intros H.
  assert (Hlt : (i < n)%nat).
  { rewrite <- (length_seq n 0). apply nth_error_Some. rewrite H. discriminate. }
  split; [| exact Hlt].
  apply (nth_error_nth _ _ 0%nat) in H. rewrite seq_nth in H by exact Hlt. lia.
Qed.

(** C4: in the weekly table, the line of date [d] (from 7 days to 1 day before
    the as-of date) has for [roi_1] the observed [roi_1] of that date; for
    [roi_3] the observed [roi_3] when [d] is at most 2 days before the as-of
    date, and else [roi_1] times the ratio of [pay_sum_3] to [pay_sum_1] over
    the rows dated from [d - 16] to [d - 2]; for [roi_7] the observed [roi_7]
    when [d] is at most 6 days before the as-of date, and else [roi_1] times
    that ratio times the ratio of [pay_sum_7] to [pay_sum_3] over the rows
    dated from [d - 20] to [d - 6]. A mature cell is never projected. *)
Theorem C4_weekly_row_cells (data : indexed row) (as_of : Z)
  (tbl : list table_row) (i : nat) (r : table_row) :
  my_table data as_of = Return tbl ->
  nth_error tbl i = Some r ->
  let d := row_date as_of i in
  let ratio_3_over_1 := ratio pay_sum_3 pay_sum_1 (rows_in (d - 16) (d - 2) data) in
  let ratio_7_over_3 := ratio pay_sum_7 pay_sum_3 (rows_in (d - 20) (d - 6) data) in
  as_of - 7 <= d <= as_of - 1
  /\ cell_date r = (month d, day d)
  /\ exists obs,
       observed data d (7 - i) = Return obs
       /\ cell_1roi r = roi_1 obs
       /\ cell_3roi r = (if d <=? as_of - 2 then roi_3 obs
                         else fmul (roi_1 obs) ratio_3_over_1)
       /\ cell_7roi r = (if d <=? as_of - 6 then roi_7 obs
                         else fmul (fmul (roi_1 obs) ratio_3_over_1) ratio_7_over_3).
Proof.
  intros Htbl Hnth d r31 r73.
  unfold my_table in Htbl.
  apply table_loop_rows in Htbl. destruct Htbl as (rows & HF & ->).
  cbn [app] in Hnth.
  destruct (Forall2_nth_error_l _ _ _ HF i r Hnth) as (j & Hj & Hrow).
  apply nth_error_seq_0 in Hj. destruct Hj as [-> Hi].
  rewrite one_row_observed in Hrow.
  fold d in Hrow.
  destruct (observed data d (7 - i)) as [obs | e] eqn:Hobs; cbn [bind] in Hrow;
    [| discriminate].
  injection Hrow as <-.
  cbn [cell_date cell_1roi cell_3roi cell_7roi].
  unfold index_three_one_coefficient, index_seven_three_coefficient.
  rewrite index_three_one_window_rows, index_seven_three_window_rows.
  fold (row_date as_of i). fold d.
  split; [unfold d, row_date; lia |].
  split; [reflexivity |].
  exists obs. repeat split.
Qed.

(** The table is made exactly when, for each of the seven days, the row at the
    feed position [k] is the row dated [k] days before the as-of date. *)
Lemma observed_DataFrame (res : list row) (d : Z) (k : nat) :
  observed (DataFrame res) d k =
  match nth_error res k with
  | Some r => if end_date r =? d then Return r else Raise KeyError
  | None => Raise KeyError
  end.
Proof. apply at_label_select_DataFrame. Qed.

Lemma one_row_DataFrame_ok (res : list row) (today : Z) (i : nat) (obs : row) :
  nth_error res (7 - i) = Some obs ->
  end_date obs = row_date today i ->
  exists r, one_row (DataFrame res) today i = Return r
            /\ cell_date r = (month (row_date today i), day (row_date today i)).
Proof.
  intros Hn Hd.
  rewrite one_row_observed, observed_DataFrame, Hn, Hd, Z.eqb_refl.
  cbn [bind]. eexists. split; reflexivity.
Qed.

Lemma feed_order_row (res : list row) (as_of : Z) :
  (forall k, (1 <= k <= 7)%nat ->
     exists r, nth_error res k = Some r /\ end_date r = as_of - Z.of_nat k) ->
  forall i, (i < 7)%nat ->
    exists r, one_row (DataFrame res) as_of i = Return r
              /\ cell_date r = (month (row_date as_of i), day (row_date as_of i)).
Proof.
  intros Hfeed i Hi.
  destruct (Hfeed (7 - i)%nat ltac:(lia)) as (obs & Hn & Hd).
  now apply (one_row_DataFrame_ok res as_of i obs).
Qed.

(** C9, as the script has it: when the feed lists the days newest first from
    the as-of date (for k from 1 to 7, the row at position k, counted from 0,
    is the row dated k days before the as-of date), the weekly table has
    exactly 7 lines, for the dates from 7 days to 1 day before the as-of
    date, in ascending order. *)
Theorem C9_weekly_table_rows (res : list row) (as_of : Z) :
  (forall k, (1 <= k <= 7)%nat ->
     exists r, nth_error res k = Some r /\ end_date r = as_of - Z.of_nat k) ->
  exists tbl,
    my_table (DataFrame res) as_of = Return tbl
    /\ List.length tbl = 7%nat
    /\ map cell_date tbl
       = map (fun d => (month d, day d))
             [as_of - 7; as_of - 6; as_of - 5; as_of - 4; as_of - 3; as_of - 2; as_of - 1].
Proof.
  intros Hfeed.
  pose proof (feed_order_row res as_of Hfeed) as Hrow.
  destruct (Hrow 0%nat ltac:(lia)) as (r0 & H0 & D0).
  destruct (Hrow 1%nat ltac:(lia)) as (r1 & H1 & D1).
  destruct (Hrow 2%nat ltac:(lia)) as (r2 & H2 & D2).
  destruct (Hrow 3%nat ltac:(lia)) as (r3 & H3 & D3).
  destruct (Hrow 4%nat ltac:(lia)) as (r4 & H4 & D4).
  destruct (Hrow 5%nat ltac:(lia)) as (r5 & H5 & D5).
  destruct (Hrow 6%nat ltac:(lia)) as (r6 & H6 & D6).
  exists [r0; r1; r2; r3; r4; r5; r6].
  split.
  - unfold my_table. cbn [seq table_loop].
    rewrite H0, H1, H2, H3, H4, H5, H6. reflexivity.
  - split; [reflexivity |].
    cbn [map]. rewrite D0, D1, D2, D3, D4, D5, D6.
    unfold row_date. cbn [Nat.sub Z.of_nat Pos.of_succ_nat Pos.succ].
    reflexivity.
Qed.

(** Without that order of the feed no table is made. *)
Lemma weekly_table_needs_feed_order (res : list row) (as_of : Z) (tbl : list table_row) :
  my_table (DataFrame res) as_of = Return tbl ->
  forall k, (1 <= k <= 7)%nat ->
    exists r, nth_error res k = Some r /\ end_date r = as_of - Z.of_nat k.
Proof.
  intros Htbl k Hk.
  unfold my_table in Htbl. apply table_loop_rows in Htbl.
  destruct Htbl as (rows & HF & _).
  assert (Hin : In (7 - k)%nat (seq 0 7)) by (apply in_seq; lia).
  assert (Hex : exists r, one_row (DataFrame res) as_of (7 - k) = Return r).
  { clear - HF Hin. induction HF as [| i r range rows Hi HF IH]; [contradiction |].
    destruct Hin as [<- | Hin]; [now exists r | now apply IH]. }
  destruct Hex as (r & Hr).
  rewrite one_row_observed, observed_DataFrame in Hr.
  replace (7 - (7 - k))%nat with k in Hr by lia.
  destruct (nth_error res k) as [obs |]; [| discriminate].
  exists obs. split; [reflexivity |].
  destruct (Z.eqb_spec (end_date obs) (row_date as_of (7 - k))) as [He |]; [| discriminate].
  rewrite He. unfold row_date. lia.
Qed.

(** ** The 7-day ROI of the summary *)

(** Fewer than 7 rows in the month: exactly 0, whatever the rows hold. *)
Lemma total_7roi_few_rows (data : indexed row) (as_of : Z) :
  (List.length (this_month_data data as_of) < 7)%nat ->
  total_7roi_calculator data as_of = Return zero.
Proof.
  intros Hlen. unfold total_7roi_calculator.
  now replace (Z.of_nat _ <? 7) with true by (symmetry; apply Z.ltb_lt; lia).
Qed.

(** At least 7 rows and the as-of date on the 7th of its month or later: the
    ratio over the rows of the month dated at most 6 days before, rounded to
    4 places. *)
Lemma total_7roi_mature (data : indexed row) (as_of : Z) :
  (7 <= List.length (this_month_data data as_of))%nat ->
  7 <= day as_of ->
  total_7roi_calculator data as_of
  = Return (Float64.round
              (ratio pay_sum_7 cost
                 (select (fun r => end_date r <=? as_of - 6) (this_month_data data as_of))) 4).
Proof.
  intros Hlen Hday. unfold total_7roi_calculator.
  replace (Z.of_nat _ <? 7) with false by (symmetry; apply Z.ltb_ge; lia).
  cbv zeta.
  rewrite (to_datetime_day_minus as_of 6) by lia.
  reflexivity.
Qed.

(** At least 7 rows and the as-of date before the 7th: [today.day-6] is no
    day of the month, the text is no date and the comparison raises. *)
Lemma total_7roi_early_in_month (data : indexed row) (as_of : Z) :
  (7 <= List.length (this_month_data data as_of))%nat ->
  day as_of < 7 ->
  total_7roi_calculator data as_of = Raise TypeError.
Proof.
  intros Hlen Hday. unfold total_7roi_calculator.
  replace (Z.of_nat _ <? 7) with false by (symmetry; apply Z.ltb_ge; lia).
  cbv zeta.
  now rewrite to_datetime_day_below by lia.
Qed.

(** ** Runs of the report *)

Example may_20_table_made :
  my_table (DataFrame (newest_first flat_row may_20 28)) may_20 = Return may_20_table.
Proof. vm_compute. reflexivity. Qed.

Lemma C1_zero_denominator_witness :
  is_zero (denominator_of (DataFrame (newest_first unpaid_row may_20 28)) may_20
             Global_3_over_1) = true
  /\ exists data,
       load (newest_first unpaid_row may_20 28) = Return data
       /\ (window_of data may_20 Global_3_over_1 = []
           \/ is_zero (denominator_of data may_20 Global_3_over_1) = true ->
           sentinel (value_of data may_20 Global_3_over_1)
           /\ (feeds_prediction Global_3_over_1 = true ->
               sentinel (predicted_7roi data may_20)
               /\ is_zero (predicted_7roi data may_20) = false)).
Proof.
  split; [vm_compute; reflexivity |].
  apply (C1_zero_denominator_sentinel (newest_first unpaid_row may_20 28) may_20
           Global_3_over_1).
  vm_compute. discriminate.
Defined.

Example unpaid_days_run :
  let data := DataFrame (newest_first unpaid_row may_20 28) in
  three_one_coefficient data may_20 = infinity false
  /\ total_1roi data may_20 = zero
  /\ predicted_7roi data may_20 = NaN.
Proof. vm_compute. repeat split. Qed.

Lemma C4_weekly_row_witness :
  let data := DataFrame (newest_first flat_row may_20 28) in
  let d := row_date may_20 6 in
  let ratio_3_over_1 := ratio pay_sum_3 pay_sum_1 (rows_in (d - 16) (d - 2) data) in
  let ratio_7_over_3 := ratio pay_sum_7 pay_sum_3 (rows_in (d - 20) (d - 6) data) in
  may_20 - 7 <= d <= may_20 - 1
  /\ cell_date (nth 6 may_20_table (mkTableRow (0, 0) NaN 0 NaN NaN NaN)) = (month d, day d)
  /\ exists obs,
       observed data d (7 - 6) = Return obs
       /\ cell_1roi (nth 6 may_20_table (mkTableRow (0, 0) NaN 0 NaN NaN NaN)) = roi_1 obs
       /\ cell_3roi (nth 6 may_20_table (mkTableRow (0, 0) NaN 0 NaN NaN NaN))
          = (if d <=? may_20 - 2 then roi_3 obs else fmul (roi_1 obs) ratio_3_over_1)
       /\ cell_7roi (nth 6 may_20_table (mkTableRow (0, 0) NaN 0 NaN NaN NaN))
          = (if d <=? may_20 - 6 then roi_7 obs
             else fmul (fmul (roi_1 obs) ratio_3_over_1) ratio_7_over_3).
Proof.
  apply (C4_weekly_row_cells
           (DataFrame (newest_first flat_row may_20 28)) may_20 may_20_table 6
           (nth 6 may_20_table (mkTableRow (0, 0) NaN 0 NaN NaN NaN)));
    vm_compute; reflexivity.
Defined.

Lemma C9_weekly_table_witness :
  exists tbl,
    my_table (DataFrame (newest_first flat_row may_20 28)) may_20 = Return tbl
    /\ List.length tbl = 7%nat
    /\ map cell_date tbl
       = map (fun d => (month d, day d))
             [may_20 - 7; may_20 - 6; may_20 - 5; may_20 - 4; may_20 - 3;
              may_20 - 2; may_20 - 1].
Proof.
  apply (C9_weekly_table_rows (newest_first flat_row may_20 28) may_20).
  intros k Hk.
  exists (flat_row (may_20 - Z.of_nat k)).
  split; [| reflexivity].
  destruct k as [| [| [| [| [| [| [| [| k]]]]]]]]; try reflexivity; lia.
Defined.

Example may_20_table_dates : map cell_date may_20_table
  = [(5, 13); (5, 14); (5, 15); (5, 16); (5, 17); (5, 18); (5, 19)].
Proof. reflexivity. Qed.

(** C9 as stated fails: 28 flat days up to 2024-05-20, one row for each date
    from 27 days before to the date itself and no date twice, but listed the
    oldest first; the look-up of the row of 2024-05-13 at the label 7 raises
    and no table is made. *)
Lemma C9_counterexample :
  let feed := oldest_first flat_row may_20 28 in
  distinct_dates feed = true
  /\ forallb (has_date feed) (map (fun k => may_20 - Z.of_nat k) (seq 0 28)) = true
  /\ my_table (DataFrame feed) may_20 = Raise KeyError.
Proof. vm_compute. repeat split. Qed.


(** *** On the feed the query returns *)

(** The query asks for one row per day, from the first day of last month to
    today: no date twice, and the rows of the month of today are dated in
    this year and not after today. Then the month has at most as many rows as
    the day of the month, the text built from [today.day-6] is a date whenever
    the month has 7 rows, and the script computes what C3 says. *)

Lemma values_select_DataFrame (mask : row -> bool) (res : list row) :
  values (select mask (DataFrame res)) = filter mask res.
Proof.
  unfold values, select, DataFrame.
  generalize 0%nat as s.
  induction res as [| r res IH]; intros s; cbn [List.length seq combine filter map snd].
  - reflexivity.
  - destruct (mask r); cbn [map snd]; now rewrite IH.
Qed.

(** A selection of rows with distinct dates has distinct dates. *)
Lemma selected_dates_distinct (mask : row -> bool) (res : list row) :
  NoDup (map end_date res) -> NoDup (map end_date (filter mask res)).
Proof.
  induction res as [| r res IH]; cbn [map filter]; intros Hnd; [constructor |].
  apply NoDup_cons_iff in Hnd. destruct Hnd as [Hfresh Hnd].
  destruct (mask r); cbn [map]; [| now apply IH].
  apply NoDup_cons; [| now apply IH].
  intros Hin. apply Hfresh.
  apply in_map_iff in Hin. destruct Hin as (r' & Hdate & Hsel).
  apply filter_In in Hsel. apply in_map_iff. exists r'. now split.
Qed.

Lemma same_month_offset (t today : Z) :
  year t = year today -> month t = month today -> t - today = day t - day today.
Proof.
  intros Hy Hm.
  rewrite <- (days_from_civil_from_days t) at 1.
  rewrite <- (days_from_civil_from_days today) at 1.
  rewrite Hy, Hm. unfold days_from_civil. cbv zeta. lia.
Qed.

Lemma month_rows_at_most_day (res : list row) (today : Z) :
  NoDup (map end_date res) ->
  (forall r, In r res -> month (end_date r) = month today ->
             year (end_date r) = year today /\ end_date r <= today) ->
  Z.of_nat (List.length (this_month_data (DataFrame res) today)) <= day today.
Proof.
  intros Hnd Hfeed.
  pose proof (civil_from_days_valid today) as [_ [Hd1 _]].
  set (dates := map end_date (filter (fun r => month (end_date r) =? month today) res)).
  assert (Hlen : List.length (this_month_data (DataFrame res) today) = List.length dates).
  { unfold dates. rewrite length_map, <- values_select_DataFrame.
    unfold values. now rewrite length_map. }
  rewrite Hlen.
  set (span := map (fun k => today - day today + 1 + Z.of_nat k)
                   (seq 0 (Z.to_nat (day today)))).
  assert (Hincl : incl dates span).
  { intros t Ht. unfold dates in Ht.
    apply in_map_iff in Ht. destruct Ht as (r & <- & Hr).
    apply filter_In in Hr. destruct Hr as [Hin Hm].
    apply Z.eqb_eq in Hm.
    destruct (Hfeed r Hin Hm) as [Hy Hle].
    pose proof (same_month_offset (end_date r) today Hy Hm) as Hoff.
    pose proof (civil_from_days_valid (end_date r)) as [_ [Hr1 _]].
    unfold span. apply in_map_iff.
    exists (Z.to_nat (end_date r - (today - day today + 1))).
    split; [lia | apply in_seq; lia]. }
  assert (Hnd' : NoDup dates) by (unfold dates; now apply selected_dates_distinct).
  pose proof (NoDup_incl_length Hnd' Hincl) as Hle.
  unfold span in Hle. rewrite length_map, length_seq in Hle. lia.
Qed.

Lemma total_7roi_on_feed (res : list row) (today : Z) :
  NoDup (map end_date res) ->
  (forall r, In r res -> month (end_date r) = month today ->
             year (end_date r) = year today /\ end_date r <= today) ->
  total_7roi_calculator (DataFrame res) today
  = Return (if (List.length (this_month_data (DataFrame res) today) <? 7)%nat
            then zero
            else Float64.round
                   (ratio pay_sum_7 cost
                      (select (fun r => end_date r <=? today - 6)
                              (this_month_data (DataFrame res) today))) 4).
Proof.
  intros Hnd Hfeed.
  pose proof (month_rows_at_most_day res today Hnd Hfeed) as Hday.
  destruct (Nat.ltb_spec (List.length (this_month_data (DataFrame res) today)) 7) as [Hlt | Hge].
  - now apply total_7roi_few_rows.
  - apply total_7roi_mature; lia.
Qed.

(** ** The client *)

Import DingTalk Codec Client.
Open Scope string_scope.

Lemma append_assoc (a b c : string) : (a ++ b) ++ c = a ++ b ++ c.
Proof. induction a as [| x a IH]; cbn; [reflexivity | now rewrite IH]. Qed.

Lemma append_mentions (tag : string) (mobiles : list string) (body : string) :
  fold_left (fun c mobile => c ++ tag ++ mobile) mobiles body
  = body ++ mention_text tag mobiles.
Proof.
  revert body.
  induction mobiles as [| m mobiles IH]; intros body; cbn [fold_left mention_text].
  - clear. induction body as [| x body IH]; cbn; [reflexivity | now rewrite <- IH].
  - rewrite IH. now rewrite !append_assoc.
Qed.

(** The POST and the reading of the answer. *)
Lemma deliver_verdict (srv : server) (self : DingTalkBot) (payload : json)
  (sent : list http_request) :
  deliver srv self payload sent
  = (verdict (srv (post_of self payload)), (sent ++ [post_of self payload])%list).
Proof.
  unfold deliver, and_then, request. fold (post_of self payload).
  destruct (srv (post_of self payload)) as [[j | text] |]; cbn; try reflexivity.
  destruct j; cbn; try reflexivity.
  now destruct (eq_zero _).
Qed.

(** A send method raises [TypeError] before any POST, or makes one POST. *)
Lemma perform_cases (srv : server) (self : DingTalkBot) (c : call)
  (sent : list http_request) :
  perform srv self c sent = (Raise TypeError, sent)
  \/ exists payload, perform srv self c sent = deliver srv self payload sent.
Proof.
  destruct c as [title content mobiles b | | title text mobiles b | | | | img mobiles b];
    cbn [perform];
    try (right; eexists; reflexivity).
  all: unfold send_text, send_markdown, send_image, and_then.
  all: destruct (truthy mobiles); [destruct mobiles |];
    cbn; first [now left | right; eexists; reflexivity].
Qed.

Lemma verdict_true (answer : option http_body) :
  verdict answer = Return true <->
  exists kv, answer = Some (Json (JDict kv)) /\ eq_zero (dict_get kv "errcode") = true.
Proof.
  split.
  - destruct answer as [[j | text] |]; cbn; try discriminate.
    destruct j; try discriminate. intros [= H]. now exists kv.
  - intros (kv & -> & H). cbn. now rewrite H.
Qed.

Lemma verdict_false (answer : option http_body) :
  verdict answer = Return false <->
  exists kv, answer = Some (Json (JDict kv)) /\ eq_zero (dict_get kv "errcode") = false.
Proof.
  split.
  - destruct answer as [[j | text] |]; cbn; try discriminate.
    destruct j; try discriminate. intros [= H]. now exists kv.
  - intros (kv & -> & H). cbn. now rewrite H.
Qed.

(** C6, as the client has it: a send method that reaches its POST returns true
    exactly when the answer parses as a JSON object whose [errcode] equals 0,
    and false exactly when it parses as a JSON object whose [errcode] is
    absent or anything else; an answer that is no JSON makes the method raise
    the decoding error, it does not return false. *)
Theorem C6_send_result (srv : server) (self : DingTalkBot) (c : call)
  (sent : list http_request) :
  perform srv self c sent = (Raise TypeError, sent)
  \/ exists rq,
       snd (perform srv self c sent) = (sent ++ [rq])%list
       /\ req_method rq = "POST"
       /\ req_url rq = webhook_url self
       /\ (fst (perform srv self c sent) = Return true <->
           exists kv, srv rq = Some (Json (JDict kv))
                      /\ eq_zero (dict_get kv "errcode") = true)
       /\ (fst (perform srv self c sent) = Return false <->
           exists kv, srv rq = Some (Json (JDict kv))
                      /\ eq_zero (dict_get kv "errcode") = false)
       /\ (forall text, srv rq = Some (NotJson text) ->
           fst (perform srv self c sent) = Raise JSONDecodeError).
Proof.
  destruct (perform_cases srv self c sent) as [Hraise | (payload & Hsend)];
    [now left | right].
  rewrite Hsend, deliver_verdict. cbn [fst snd].
  exists (post_of self payload).
  split; [reflexivity |].
  split; [reflexivity |].
  split; [reflexivity |].
  split; [apply verdict_true |].
  split; [apply verdict_false |].
  intros text Ht. now rewrite Ht.
Qed.

(** C6 as stated fails: the server answers a page that is no JSON, and
    [send_text] (and [send_markdown]) raises where the claim has it return
    false. *)
Lemma C6_counterexample :
  fst (run (send_text bad_gateway plain_bot "t" "c" ANone false)) = Raise JSONDecodeError
  /\ fst (run (send_text bad_gateway plain_bot "t" "c" ANone false)) <> Return false
  /\ fst (run (send_markdown bad_gateway plain_bot "t" "c" ANone false)) = Raise JSONDecodeError.
Proof. repeat split. discriminate. Qed.

(** What [mobiles] does in the three methods that take it. *)
Lemma mobiles_raises (mobiles : pyarg) :
  is_list mobiles = false -> truthy mobiles = true ->
  forall (srv : server) (self : DingTalkBot) (sent : list http_request),
    (forall title content b,
        send_text srv self title content mobiles b sent = (Raise TypeError, sent))
    /\ (forall title text b,
        send_markdown srv self title text mobiles b sent = (Raise TypeError, sent))
    /\ (forall image b,
        send_image srv self image mobiles b sent = (Raise TypeError, sent)).
Proof.
  intros Hl Ht srv self sent.
  unfold send_text, send_markdown, send_image, and_then.
  rewrite Ht.
  destruct mobiles; try discriminate; repeat split.
Qed.

Lemma mobiles_falsy_as_none (mobiles : pyarg) :
  truthy mobiles = false ->
  forall (srv : server) (self : DingTalkBot),
    (forall title content b,
        send_text srv self title content mobiles b
        = send_text srv self title content ANone b)
    /\ (forall title text b,
        send_markdown srv self title text mobiles b
        = send_markdown srv self title text ANone b)
    /\ (forall image b,
        send_image srv self image mobiles b = send_image srv self image ANone b).
Proof.
  intros Ht srv self.
  unfold send_text, send_markdown, send_image.
  rewrite Ht. repeat split.
Qed.

(** C7, as the client has it: a value of [mobiles] that is not a list and is
    true for Python (a non-empty string or tuple, a non-zero number, [True])
    makes [send_text], [send_markdown] and [send_image] raise [TypeError]
    with no request made; a value that is false for Python (the empty string,
    0, [False], the empty tuple) is taken as no [mobiles] at all. *)
Theorem C7_mobiles_not_a_list (srv : server) (self : DingTalkBot) (mobiles : pyarg)
  (sent : list http_request) :
  is_list mobiles = false ->
  (truthy mobiles = true ->
     (forall title content b,
         send_text srv self title content mobiles b sent = (Raise TypeError, sent))
     /\ (forall title text b,
         send_markdown srv self title text mobiles b sent = (Raise TypeError, sent))
     /\ (forall image b,
         send_image srv self image mobiles b sent = (Raise TypeError, sent)))
  /\ (truthy mobiles = false ->
        (forall title content b,
            send_text srv self title content mobiles b
            = send_text srv self title content ANone b)
        /\ (forall title text b,
            send_markdown srv self title text mobiles b
            = send_markdown srv self title text ANone b)
        /\ (forall image b,
            send_image srv self image mobiles b = send_image srv self image ANone b)).
Proof.
  intros Hl. split.
  - intros Ht. now apply mobiles_raises.
  - intros Ht. now apply mobiles_falsy_as_none.
Qed.

Lemma C7_mobiles_witness :
  (truthy (AStr "13800000000") = true ->
     (forall title content b,
         send_text accepting plain_bot title content (AStr "13800000000") b []
         = (Raise TypeError, []))
     /\ (forall title text b,
         send_markdown accepting plain_bot title text (AStr "13800000000") b []
         = (Raise TypeError, []))
     /\ (forall image b,
         send_image accepting plain_bot image (AStr "13800000000") b []
         = (Raise TypeError, [])))
  /\ (truthy (AStr "13800000000") = false ->
        (forall title content b,
            send_text accepting plain_bot title content (AStr "13800000000") b
            = send_text accepting plain_bot title content ANone b)
        /\ (forall title text b,
            send_markdown accepting plain_bot title text (AStr "13800000000") b
            = send_markdown accepting plain_bot title text ANone b)
        /\ (forall image b,
            send_image accepting plain_bot image (AStr "13800000000") b
            = send_image accepting plain_bot image ANone b)).
Proof.
  apply (C7_mobiles_not_a_list accepting plain_bot (AStr "13800000000") []).
  reflexivity.
Defined.

(** C7 as stated fails: the empty string is not a list, and [send_text] (as
    [send_markdown] and [send_image]) posts the message and returns true. *)
Lemma C7_counterexample :
  is_list (AStr "") = false
  /\ run (send_text accepting plain_bot "t" "c" (AStr "") false)
     = (Return true,
        [post_of plain_bot
           (JDict [("msgtype", JStr "text"); ("title", JStr "t");
                   ("text", JDict [("content", JStr "c")]);
                   ("at", JDict [("atMobiles", JStr ""); ("isAtAll", JBool false)])])])
  /\ fst (run (send_markdown accepting plain_bot "t" "c" (AStr "") false)) = Return true
  /\ fst (run (send_image accepting plain_bot "aGk=" (AStr "") false)) = Return true.
Proof. repeat split. Qed.


(** The payload of the three methods when [mobiles] is a non-empty list. *)
Lemma send_text_list (srv : server) (self : DingTalkBot) (title content : string)
  (mobiles : list string) (b : bool) :
  mobiles <> [] ->
  send_text srv self title content (AList mobiles) b
  = deliver srv self
      (JDict [("msgtype", JStr "text"); ("title", JStr title);
              ("text", JDict [("content", JStr (content ++ mention_text "@" mobiles))]);
              ("at", JDict [("atMobiles", JList (map JStr mobiles));
                            ("isAtAll", JBool false)])]).
Proof.
  intros Hne. unfold send_text.
  destruct mobiles as [| m ms]; [contradiction |].
  cbn [truthy]. now rewrite append_mentions.
Qed.

Lemma send_image_list (srv : server) (self : DingTalkBot) (image_base64 : string)
  (mobiles : list string) (b : bool) :
  mobiles <> [] ->
  send_image srv self image_base64 (AList mobiles) b
  = deliver srv self
      (JDict [("msgtype", JStr "image");
              ("image", JDict [("base64",
                                JStr (image_base64 ++ mention_text " @" mobiles))]);
              ("at", JDict [("atMobiles", JList (map JStr mobiles));
                            ("isAtAll", JBool false)])]).
Proof.
  intros Hne. unfold send_image.
  destruct mobiles as [| m ms]; [contradiction |].
  cbn [truthy]. now rewrite append_mentions.
Qed.

(** C8: [send_text] with a non-empty list of mobiles posts a payload whose
    body text is the content followed by @ and the number for each mobile,
    whose [atMobiles] is the list and whose [isAtAll] is false; with the
    mobiles 13800000000 and the content A, the body is A@13800000000. *)
Theorem C8_text_mentions (srv : server) (self : DingTalkBot) (title content : string)
  (mobiles : list string) (is_at_all : bool) (sent : list http_request) :
  mobiles <> [] ->
  exists payload,
    snd (send_text srv self title content (AList mobiles) is_at_all sent)
    = (sent ++ [post_of self payload])%list
    /\ at_path ["text"; "content"] payload
       = Some (JStr (content ++ mention_text "@" mobiles))
    /\ at_path ["at"; "atMobiles"] payload = Some (JList (map JStr mobiles))
    /\ at_path ["at"; "isAtAll"] payload = Some (JBool false).
Proof.
  intros Hne.
  rewrite send_text_list by exact Hne.
  rewrite deliver_verdict. cbn [snd].
  eexists. split; [reflexivity |].
  repeat split.
Qed.

Lemma C8_mention_append_test :
  exists payload,
    snd (send_text accepting plain_bot "title" "A" (AList ["13800000000"]) false [])
    = [post_of plain_bot payload]
    /\ at_path ["text"; "content"] payload = Some (JStr "A@13800000000")
    /\ at_path ["at"; "atMobiles"] payload = Some (JList [JStr "13800000000"])
    /\ at_path ["at"; "isAtAll"] payload = Some (JBool false).
Proof.
  apply (C8_text_mentions accepting plain_bot "title" "A" ["13800000000"] false []).
  discriminate.
Defined.

(** The mention test for every title, client, server and [is_at_all]. *)
Example mention_append_any (srv : server) (self : DingTalkBot) (title : string)
  (is_at_all : bool) :
  snd (run (send_text srv self title "A" (AList ["13800000000"]) is_at_all))
  = [post_of self
       (JDict [("msgtype", JStr "text"); ("title", JStr title);
               ("text", JDict [("content", JStr "A@13800000000")]);
               ("at", JDict [("atMobiles", JList [JStr "13800000000"]);
                             ("isAtAll", JBool false)])])].
Proof.
  unfold run. rewrite send_text_list by discriminate.
  now rewrite deliver_verdict.
Qed.

(** C10: [send_image] with a non-empty list of mobiles posts a payload whose
    [base64] field of the image is the given string followed by a space, @
    and the number for each mobile in order (the mention goes into the image
    data), whose [atMobiles] is the list and whose [isAtAll] is false. *)
Theorem C10_image_mentions (srv : server) (self : DingTalkBot) (image_base64 : string)
  (mobiles : list string) (is_at_all : bool) (sent : list http_request) :
  mobiles <> [] ->
  exists payload,
    snd (send_image srv self image_base64 (AList mobiles) is_at_all sent)
    = (sent ++ [post_of self payload])%list
    /\ at_path ["image"; "base64"] payload
       = Some (JStr (image_base64 ++ mention_text " @" mobiles))
    /\ at_path ["at"; "atMobiles"] payload = Some (JList (map JStr mobiles))
    /\ at_path ["at"; "isAtAll"] payload = Some (JBool false).
Proof.
  intros Hne.
  rewrite send_image_list by exact Hne.
  rewrite deliver_verdict. cbn [snd].
  eexists. split; [reflexivity |].
  repeat split.
Qed.

Lemma C10_image_mentions_witness :
  exists payload,
    snd (send_image accepting plain_bot "aGk=" (AList ["13800000000"; "13900000000"]) true [])
    = [post_of plain_bot payload]
    /\ at_path ["image"; "base64"] payload
       = Some (JStr "aGk= @13800000000 @13900000000")
    /\ at_path ["at"; "atMobiles"] payload
       = Some (JList [JStr "13800000000"; JStr "13900000000"])
    /\ at_path ["at"; "isAtAll"] payload = Some (JBool false).
Proof.
  apply (C10_image_mentions accepting plain_bot "aGk="
           ["13800000000"; "13900000000"] true []).
  discriminate.
Defined.

(** ** The signed URL *)

Example sha256_abc :
  sha256 (encode "abc")
  = [186; 120; 22; 191; 143; 1; 207; 234; 65; 65; 64; 222; 93; 174; 34; 35;
     176; 3; 97; 163; 150; 23; 122; 156; 180; 16; 255; 97; 242; 0; 21; 173]%Z.
Proof. vm_compute. reflexivity. Qed.

Example get_sign_run :
  get_sign "SECabc" "1700000000000" = "jcUpW0QmtKduN03n4JqQ0PBosVjqnM8gU7fIIvsDmCM%3D"
  /\ get_sign "k" "1" = "%2BY%2FNysOI70f4DBpAAhJ12F23YD7ant6IfWD1Sviq7UI%3D".
Proof. vm_compute. split; reflexivity. Qed.

(** C2: with a non-empty secret the client uses the webhook URL followed by
    [&timestamp=] and the time in milliseconds and [&sign=] and the
    signature, which is the URL-quoted base64 of the HMAC-SHA256, under the
    UTF-8 bytes of the secret, of the UTF-8 bytes of the timestamp, a newline
    and the secret; with no secret it uses the webhook URL as it is. *)
Theorem C2_signed_url (time_time : Q) (secret url : string) :
  secret <> "" ->
  let timestamp := str (rint (time_time * 1000)) in
  let signature :=
    quote_plus
      (b64encode (hmac_sha256 (encode secret) (encode (timestamp ++ newline ++ secret)))) in
  webhook_url (init time_time (Some secret) url)
  = url ++ "&timestamp=" ++ timestamp ++ "&sign=" ++ signature
  /\ webhook_url (init time_time None url) = url.
Proof.
  intros Hs timestamp signature.
  split; [| reflexivity].
  unfold init.
  apply String.eqb_neq in Hs. rewrite Hs. cbn [negb webhook_url].
  reflexivity.
Qed.

Lemma C2_signed_url_witness :
  let secret := "SECabc" in
  let url := "https://oapi.dingtalk.com/robot/send?access_token=t" in
  let timestamp := str (rint (1700000000 * 1000)) in
  let signature :=
    quote_plus
      (b64encode (hmac_sha256 (encode secret) (encode (timestamp ++ newline ++ secret)))) in
  webhook_url (init 1700000000 (Some secret) url)
  = url ++ "&timestamp=" ++ timestamp ++ "&sign=" ++ signature
  /\ webhook_url (init 1700000000 None url) = url.
Proof.
  apply (C2_signed_url 1700000000 "SECabc"
           "https://oapi.dingtalk.com/robot/send?access_token=t").
  discriminate.
Defined.

Example signed_url_run :
  webhook_url (init (17000000001234 # 10000) (Some "SECabc")
                 "https://oapi.dingtalk.com/robot/send?access_token=t")
  = "https://oapi.dingtalk.com/robot/send?access_token=t&timestamp=1700000000123&sign="
    ++ get_sign "SECabc" "1700000000123"
  /\ webhook_url (init 1700000000 (Some "")
                    "https://oapi.dingtalk.com/robot/send?access_token=t")
     = "https://oapi.dingtalk.com/robot/send?access_token=t".
Proof. vm_compute. split; reflexivity. Qed.

Close Scope string_scope.
(** * More of the script *)

Import Script.

(** ** The calendar, from dates to day numbers and back *)

Lemma year_of_era (yoe doy : Z) :
  0 <= yoe <= 399 -> 0 <= doy <= 365 ->
  (doy = 365 -> (yoe + 1) mod 4 = 0 /\ ((yoe + 1) mod 100 <> 0 \/ yoe = 399)) ->
  let doe := yoe * 365 + yoe / 4 - yoe / 100 + doy in
  0 <= doe <= 146096
  /\ (doe - doe / 1460 + doe / 36524 - doe / 146096) / 365 = yoe.
Proof.
  intros Hy Hd Hleap doe. subst doe.
  Z.div_mod_to_equations; lia.
Qed.

(** Where a month starts in the year that begins in March, and how the day
    of that year gives the month back. *)
Lemma month_of_year_day (y m d : Z) :
  1 <= m <= 12 -> 1 <= d <= days_in_month y m ->
  let mp := if m >? 2 then m - 3 else m + 9 in
  let doy := (153 * mp + 2) / 5 + d - 1 in
  0 <= doy <= 365
  /\ (doy = 365 -> m = 2 /\ is_leap y = true)
  /\ (5 * doy + 2) / 153 = mp
  /\ doy - (153 * mp + 2) / 5 + 1 = d
  /\ (if mp <? 10 then mp + 3 else mp - 9) = m.
Proof.
  intros Hm Hd.
  assert (Hc : m = 1 \/ m = 2 \/ m = 3 \/ m = 4 \/ m = 5 \/ m = 6 \/ m = 7 \/ m = 8
               \/ m = 9 \/ m = 10 \/ m = 11 \/ m = 12) by lia.
  clear Hm. unfold days_in_month in Hd.
  repeat (destruct Hc as [-> | Hc]); [.. | subst m].
  all: cbv zeta; cbn [Z.gtb Z.compare Pos.compare Pos.compare_cont] in *.
  all: cbn in Hd; try (destruct (is_leap y) eqn:Hl).
  all: repeat split; try (Z.div_mod_to_equations; lia).
Qed.

(** The day number of a calendar date is the number of that date. *)
Lemma civil_of_valid (y m d : Z) :
  1 <= m <= 12 -> 1 <= d <= days_in_month y m ->
  civil_from_days (days_from_civil y m d) = (y, m, d).
Proof.
  intros Hm Hd.
  pose proof (month_of_year_day y m d Hm Hd) as Hmonth. cbv zeta in Hmonth.
  unfold days_from_civil. cbv zeta.
  set (mp := if m >? 2 then m - 3 else m + 9) in *.
  set (y' := if m <=? 2 then y - 1 else y).
  set (era := y' / 400).
  set (yoe := y' - era * 400).
  set (doy := (153 * mp + 2) / 5 + d - 1) in *.
  destruct Hmonth as (Hdoy & Hlast & Hmp & Hday & Hmon).
  assert (Hyoe : 0 <= yoe <= 399).
  { unfold yoe, era. Z.div_mod_to_equations. lia. }
  assert (Hleap : doy = 365 -> (yoe + 1) mod 4 = 0 /\ ((yoe + 1) mod 100 <> 0 \/ yoe = 399)).
  { intros H365. destruct (Hlast H365) as [-> Hl].
    unfold is_leap in Hl. apply andb_true_iff in Hl. destruct Hl as [H4 H100].
    apply Z.eqb_eq in H4. apply orb_true_iff in H100.
    assert (Hy' : y' = y - 1) by reflexivity.
    assert (H100' : y mod 100 <> 0 \/ y mod 400 = 0).
    { destruct H100 as [H | H]; [left | right].
      - apply negb_true_iff in H. now apply Z.eqb_neq in H.
      - now apply Z.eqb_eq in H. }
    clear H100. unfold yoe, era. rewrite Hy'.
    Z.div_mod_to_equations. lia. }
  pose proof (year_of_era yoe doy Hyoe Hdoy Hleap) as Hera. cbv zeta in Hera.
  set (doe := yoe * 365 + yoe / 4 - yoe / 100 + doy) in *.
  destruct Hera as [Hdoe Hback].
  assert (Hy' : yoe + era * 400 = y') by (unfold yoe; lia).
  assert (Edoy : doe - (365 * yoe + yoe / 4 - yoe / 100) = doy) by (unfold doe; lia).
  clearbody doe doy mp yoe era.
  unfold civil_from_days. cbv zeta.
  replace (era * 146097 + doe - 719468 + 719468) with (era * 146097 + doe) by lia.
  assert (E : (era * 146097 + doe) / 146097 = era).
  { Z.div_mod_to_equations. lia. }
  rewrite E.
  replace (era * 146097 + doe - era * 146097) with doe by lia.
  rewrite Hback, Edoy, Hmp, Hday, Hmon, Hy'.
  unfold y'. now destruct (m <=? 2); f_equal; f_equal; lia.
Qed.

Lemma civil_eq (t : Z) : civil_from_days t = (year t, month t, day t).
Proof. unfold year, month, day. now destruct (civil_from_days t) as [[y m] d]. Qed.

(** The days of the month of [t] up to [t]. *)
Lemma civil_earlier_in_month (t k : Z) :
  0 <= k < day t -> civil_from_days (t - k) = (year t, month t, day t - k).
Proof.
  intros Hk.
  pose proof (civil_from_days_valid t) as [Hm Hd].
  rewrite <- (days_from_civil_from_days t) at 1.
  rewrite <- days_from_civil_shift.
  apply civil_of_valid; [exact Hm | lia].
Qed.

Lemma days_in_month_bounds (y m : Z) : 28 <= days_in_month y m <= 31.
Proof.
  unfold days_in_month.
  destruct (m =? 2); [destruct (is_leap y); lia |].
  destruct (_ || _); lia.
Qed.

(** From the first of a month to the first of the next. *)
Lemma month_length (y m : Z) :
  1 <= m <= 12 ->
  let y' := if m =? 1 then y - 1 else y in
  let m' := if m =? 1 then 12 else m - 1 in
  1 <= m' <= 12
  /\ days_from_civil y m 1 - days_from_civil y' m' 1 = days_in_month y' m'.
Proof.
  intros Hm.
  assert (Hc : m = 1 \/ m = 2 \/ m = 3 \/ m = 4 \/ m = 5 \/ m = 6 \/ m = 7 \/ m = 8
               \/ m = 9 \/ m = 10 \/ m = 11 \/ m = 12) by lia.
  clear Hm.
  repeat (destruct Hc as [-> | Hc]); [.. | subst m].
  all: cbv zeta; cbn [Z.eqb Pos.eqb]; split; [lia |].
  all: unfold days_from_civil, days_in_month, is_leap; cbv zeta.
  all: cbn [Z.leb Z.gtb Z.eqb Z.compare Pos.compare Pos.compare_cont Pos.eqb orb Z.sub
            Z.add Z.mul Z.opp Z.pos_sub Pos.add Pos.mul Pos.succ Pos.pred_double Z.succ_double
            Z.pred_double Z.double].
  all: try (Z.div_mod_to_equations; lia).
  all: split_tests; cbn [andb orb negb]; Z.div_mod_to_equations; lia.
Qed.

(** ** The range of the query *)

Lemma previous_month (today : Z) :
  let y' := if month today =? 1 then year today - 1 else year today in
  let m' := if month today =? 1 then 12 else month today - 1 in
  let lo := days_from_civil y' m' 1 in
  first_day_of_last_month today = (y', m', 1)
  /\ to_datetime (first_day_of_last_month today) = Some lo
  /\ civil_from_days lo = (y', m', 1)
  /\ today - lo = day today - 1 + days_in_month y' m'.
Proof.
  cbv zeta.
  pose proof (civil_from_days_valid today) as [Hm Hd].
  pose proof (month_length (year today) (month today) Hm) as Hlen. cbv zeta in Hlen.
  set (y' := if month today =? 1 then year today - 1 else year today) in *.
  set (m' := if month today =? 1 then 12 else month today - 1) in *.
  destruct Hlen as [Hm' Hlen].
  pose proof (days_in_month_bounds y' m') as Hb.
  assert (Hfirst : first_day_of_last_month today = (y', m', 1)) by reflexivity.
  split; [exact Hfirst |].
  split.
  { rewrite Hfirst. unfold to_datetime.
    rewrite (proj2 (Z.leb_le _ _) (proj1 Hm')), (proj2 (Z.leb_le _ _) (proj2 Hm')).
    replace (1 <=? days_in_month y' m') with true by (symmetry; apply Z.leb_le; lia).
    reflexivity. }
  split; [apply civil_of_valid; lia |].
  rewrite <- (days_from_civil_from_days today) at 1.
  replace (day today) with (1 - (1 - day today)) at 1 by lia.
  rewrite days_from_civil_shift. lia.
Qed.

Lemma queried_range (today t : Z) :
  queried today t = true <->
  today - (day today - 1 + days_in_month
             (if month today =? 1 then year today - 1 else year today)
             (if month today =? 1 then 12 else month today - 1)) <= t <= today.
Proof.
  unfold queried, date_conditions. cbn [fst snd].
  destruct (previous_month today) as (_ & -> & _ & Hlo).
  rewrite to_datetime_strftime, andb_true_iff, !Z.leb_le. lia.
Qed.

(** X1: the query asks for the dates from the first day of last month, which
    is 28 to 61 days before today, to today; every row the two coefficients
    of the summary and the coefficients of the table lines read (the oldest
    is dated 27 days before today) has a date the query asks for. *)
Theorem query_reaches_every_window (data : indexed row) (today : Z) :
  (exists lo,
      to_datetime (first_day_of_last_month today) = Some lo
      /\ day lo = 1
      /\ today - 61 <= lo <= today - 28)
  /\ (forall t, today - 27 <= t <= today -> queried today t = true)
  /\ (forall c ir, In ir (window_of data today c) ->
                   queried today (end_date (snd ir)) = true).
Proof.
  pose proof (previous_month today) as Hprev. cbv zeta in Hprev.
  pose proof (civil_from_days_valid today) as [Hm Hd].
  pose proof (days_in_month_bounds (year today) (month today)) as Hb.
  set (y' := if month today =? 1 then year today - 1 else year today) in *.
  set (m' := if month today =? 1 then 12 else month today - 1) in *.
  pose proof (days_in_month_bounds y' m') as Hb'.
  destruct Hprev as (_ & Hparse & Hcivil & Hlo).
  assert (Hnear : forall t, today - 27 <= t <= today -> queried today t = true).
  { intros t Ht. apply queried_range. fold y' m'. lia. }
  split.
  { exists (days_from_civil y' m' 1).
    split; [exact Hparse |].
    split; [unfold day; now rewrite Hcivil | lia]. }
  split; [exact Hnear |].
  intros c ir Hin. apply Hnear.
  destruct c as [| | i | i]; cbn [window_of] in Hin;
    apply filter_In in Hin; destruct Hin as [_ Hmask];
    apply andb_true_iff in Hmask; destruct Hmask as [Hhi Hlow];
    apply Z.leb_le in Hhi; apply Z.geb_le in Hlow; lia.
Qed.

(** In the range of the query the month number tells the month: the dates of
    the month number of today are the dates from the first of this month. *)
Lemma month_number_in_range (today t : Z) :
  queried today t = true ->
  (month t =? month today) = (today - day today + 1 <=? t)
  /\ (month t = month today -> year t = year today).
Proof.
  intros Hq. apply queried_range in Hq.
  pose proof (previous_month today) as Hprev. cbv zeta in Hprev.
  pose proof (civil_from_days_valid today) as [Hm Hd].
  set (y' := if month today =? 1 then year today - 1 else year today) in *.
  set (m' := if month today =? 1 then 12 else month today - 1) in *.
  pose proof (days_in_month_bounds y' m') as Hb'.
  destruct Hprev as (_ & _ & Hcivil & Hlo).
  destruct (Z.leb_spec (today - day today + 1) t) as [Hin | Hout].
  - (* a day of this month *)
    pose proof (civil_earlier_in_month today (today - t) ltac:(lia)) as Hc.
    replace (today - (today - t)) with t in Hc by lia.
    unfold month, year. rewrite Hc. cbn [fst snd].
    split; [apply Z.eqb_refl | reflexivity].
  - (* a day of last month *)
    set (lo := days_from_civil y' m' 1) in *.
    assert (Hm' : 1 <= m' <= 12) by (unfold m'; destruct (month today =? 1) eqn:E; [lia |];
                                      apply Z.eqb_neq in E; lia).
    assert (Hc : civil_from_days t = (y', m', 1 + (t - lo))).
    { assert (Ht : days_from_civil y' m' (1 + (t - lo)) = t).
      { replace (1 + (t - lo)) with (1 - (lo - t)) by lia.
        rewrite days_from_civil_shift. fold lo. lia. }
      rewrite <- Ht at 1.
      apply civil_of_valid; [exact Hm' | lia]. }
    assert (Hne : m' <> month today).
    { unfold m'. destruct (Z.eqb_spec (month today) 1); lia. }
    unfold month at 1 3. rewrite Hc. cbn [fst snd].
    split; [now apply Z.eqb_neq | intros; contradiction].
Qed.

Lemma all_queried_In (today : Z) (res : list row) (r : row) :
  Feed.all_queried today res = true -> In r res -> queried today (end_date r) = true.
Proof.
  intros Hall Hin. unfold Feed.all_queried in Hall.
  rewrite forallb_forall in Hall. now apply Hall.
Qed.

Lemma In_DataFrame (res : list row) (ir : nat * row) :
  In ir (DataFrame res) -> In (snd ir) res.
Proof.
  destruct ir as [l r]. intros Hin. apply in_combine_r in Hin. exact Hin.
Qed.

(** X2: on a feed whose rows all have a date the query asks for, the rows
    picked by the month number of today are the rows dated from the first
    day of this month to today, and the text of the first day of the month
    is that date. *)
Theorem month_number_picks_month_to_date (res : list row) (today : Z) :
  Feed.all_queried today res = true ->
  to_datetime (first_day_of_month today) = Some (today - day today + 1)
  /\ this_month_data (DataFrame res) today
     = rows_in (today - day today + 1) today (DataFrame res).
Proof.
  intros Hall.
  split.
  - unfold first_day_of_month.
    replace 1 with (day today - (day today - 1)) at 1 by lia.
    pose proof (civil_from_days_valid today) as [_ Hd].
    rewrite to_datetime_day_minus by lia. f_equal. lia.
  - unfold this_month_data, rows_in, select.
    apply filter_ext_in. intros ir Hin.
    pose proof (all_queried_In today res (snd ir) Hall (In_DataFrame res ir Hin)) as Hq.
    destruct (month_number_in_range today _ Hq) as [-> _].
    apply queried_range in Hq.
    replace (end_date (snd ir) <=? today) with true by (symmetry; apply Z.leb_le; lia).
    now rewrite andb_true_r.
Qed.

Lemma distinct_dates_NoDup (res : list row) :
  distinct_dates res = true -> NoDup (map end_date res).
Proof.
  induction res as [| r res IH]; cbn [distinct_dates map]; intros H; [constructor |].
  apply andb_true_iff in H. destruct H as [Hfresh Hrest].
  constructor; [| now apply IH].
  intros Hin. apply in_map_iff in Hin. destruct Hin as (r' & Hd & Hin').
  apply negb_true_iff in Hfresh.
  assert (Hex : existsb (fun r' => end_date r' =? end_date r) res = true).
  { apply existsb_exists. exists r'. split; [exact Hin' | now apply Z.eqb_eq]. }
  congruence.
Qed.

(** ** The summary on the feed the query returns *)

(** On a feed whose rows all have a date the query asks for, the month number
    alone tells the calendar month: the rows the script picks are the rows of
    the month to date. *)
Lemma this_month_is_month_to_date (res : list row) (today : Z) :
  Feed.all_queried today res = true ->
  this_month_data (DataFrame res) today = month_to_date today (DataFrame res).
Proof.
  intros Hall. unfold this_month_data, month_to_date, select.
  apply filter_ext_in. intros ir Hin.
  pose proof (all_queried_In today res (snd ir) Hall (In_DataFrame res ir Hin)) as Hq.
  destruct (month_number_in_range today _ Hq) as [_ Hy].
  apply queried_range in Hq.
  destruct (Z.eqb_spec (month (end_date (snd ir))) (month today)) as [Hm | Hm].
  - rewrite (Hy Hm), Z.eqb_refl. cbn [andb]. symmetry. apply Z.leb_le. lia.
  - now rewrite andb_false_r.
Qed.

(** C5: on a feed with at least one row the script has its frame; the
    coefficient [ratio_3_over_1] of the summary is the sum of [pay_sum_3]
    over the sum of [pay_sum_1] on the rows dated from 17 to 3 days before
    the as-of date, [ratio_7_over_3] is the sum of [pay_sum_7] over the sum
    of [pay_sum_3] on the rows dated from 21 to 7 days before it; and when
    every row has a date the query asks for (from the first day of the month
    before to the as-of date), [predicted_7roi] is the month-to-date 1-day
    ROI (the sum of [pay_sum_1] over the sum of [cost] on the rows of the
    calendar month, to date) times the two coefficients. *)
Theorem C5_global_coefficients (res : list row) (as_of : Z) :
  res <> [] ->
  exists data,
    load res = Return data
    /\ three_one_coefficient data as_of
       = ratio pay_sum_3 pay_sum_1 (rows_in (as_of - 17) (as_of - 3) data)
    /\ seven_three_coefficient data as_of
       = ratio pay_sum_7 pay_sum_3 (rows_in (as_of - 21) (as_of - 7) data)
    /\ (Feed.all_queried as_of res = true ->
        predicted_7roi data as_of
        = fmul (fmul (ratio pay_sum_1 cost (month_to_date as_of data))
                     (ratio pay_sum_3 pay_sum_1 (rows_in (as_of - 17) (as_of - 3) data)))
               (ratio pay_sum_7 pay_sum_3 (rows_in (as_of - 21) (as_of - 7) data))).
Proof.
  intros Hrows. exists (DataFrame res).
  split; [now apply load_rows |].
  unfold predicted_7roi, three_one_coefficient, seven_three_coefficient, ratio.
  rewrite three_one_window_rows, seven_three_window_rows.
  split; [reflexivity |]. split; [reflexivity |].
  intros Hall. now rewrite (this_month_is_month_to_date res as_of Hall).
Qed.

Lemma C5_global_coefficients_witness :
  Feed.all_queried may_20 (newest_first flat_row may_20 28) = true
  /\ exists data,
       load (newest_first flat_row may_20 28) = Return data
       /\ three_one_coefficient data may_20
          = ratio pay_sum_3 pay_sum_1 (rows_in (may_20 - 17) (may_20 - 3) data)
       /\ seven_three_coefficient data may_20
          = ratio pay_sum_7 pay_sum_3 (rows_in (may_20 - 21) (may_20 - 7) data)
       /\ (Feed.all_queried may_20 (newest_first flat_row may_20 28) = true ->
           predicted_7roi data may_20
           = fmul (fmul (ratio pay_sum_1 cost (month_to_date may_20 data))
                        (ratio pay_sum_3 pay_sum_1 (rows_in (may_20 - 17) (may_20 - 3) data)))
                  (ratio pay_sum_7 pay_sum_3 (rows_in (may_20 - 21) (may_20 - 7) data))).
Proof.
  split; [vm_compute; reflexivity |].
  apply (C5_global_coefficients (newest_first flat_row may_20 28) may_20).
  vm_compute. discriminate.
Defined.

(** C5 as stated fails in two ways. On the feed with no row the script
    raises [KeyError] at its first column access (line 333) and computes no
    coefficient and no [predicted_7roi]. And with a row of 2023-05-20 after
    the 28 flat days up to 2024-05-20, the script counts that row in the
    month (its month number is 5): its 1-day ROI of the month is 1000 over
    21000 where the rows of the calendar month give 1000 over 20000, and its
    [predicted_7roi] is not the one of the claim. *)
Lemma C5_counterexample :
  (data <- load [] ;;
   Return (three_one_coefficient data may_20, seven_three_coefficient data may_20,
           predicted_7roi data may_20))%py
  = Raise KeyError
  /\ (let data := DataFrame stale_feed in
      strftime may_20_2023 = (2023, 5, 20)
      /\ load stale_feed = Return data
      /\ total_1roi data may_20 = decimal 1000 21000
      /\ ratio pay_sum_1 cost (month_to_date may_20 data) = decimal 1000 20000
      /\ predicted_7roi data may_20
         <> fmul (fmul (ratio pay_sum_1 cost (month_to_date may_20 data))
                       (ratio pay_sum_3 pay_sum_1 (rows_in (may_20 - 17) (may_20 - 3) data)))
                 (ratio pay_sum_7 pay_sum_3 (rows_in (may_20 - 21) (may_20 - 7) data))).
Proof.
  cbv zeta.
  split; [reflexivity |].
  split; [vm_compute; reflexivity |].
  split; [vm_compute; reflexivity |].
  split; [vm_compute; reflexivity |].
  split; [vm_compute; reflexivity |].
  vm_compute. discriminate.
Qed.

(** C3: on a feed with at least one row, one row per date, whose rows all
    have a date the query asks for, the script has its frame and
    [total_7roi_calculator] returns: exactly 0 when the month to date has
    fewer than 7 rows, and else the ratio of the sums of [pay_sum_7] and
    [cost] over the rows of the month to date dated at most 6 days before
    the as-of date, rounded to 4 places. *)
Theorem C3_total_7roi_within_query (res : list row) (as_of : Z) :
  res <> [] ->
  distinct_dates res = true ->
  Feed.all_queried as_of res = true ->
  exists data,
    load res = Return data
    /\ total_7roi_calculator data as_of
       = Return (if (List.length (month_to_date as_of data) <? 7)%nat
                 then zero
                 else mature_7roi as_of data).
Proof.
  intros Hrows Hd Hall. exists (DataFrame res).
  split; [now apply load_rows |].
  unfold mature_7roi.
  rewrite <- (this_month_is_month_to_date res as_of Hall).
  apply total_7roi_on_feed; [now apply distinct_dates_NoDup |].
  intros r Hin Hmonth.
  pose proof (all_queried_In as_of res r Hall Hin) as Hq.
  destruct (month_number_in_range as_of _ Hq) as [_ Hy].
  apply queried_range in Hq.
  split; [now apply Hy | lia].
Qed.

Lemma C3_total_7roi_witness :
  exists data,
    load (newest_first flat_row may_20 28) = Return data
    /\ total_7roi_calculator data may_20
       = Return (if (List.length (month_to_date may_20 data) <? 7)%nat
                 then zero
                 else mature_7roi may_20 data).
Proof.
  apply (C3_total_7roi_within_query (newest_first flat_row may_20 28) may_20);
    vm_compute; (reflexivity || discriminate).
Defined.

(** C3 as stated fails in three ways. On the feed with no row the month to
    date has no row, fewer than 7, and the script raises [KeyError] at its
    first column access (line 333) where the claim has [total_7roi] equal to
    0. On 2024-05-06, with seven rows dated 2024-05-01 to 2024-05-07 (one
    row per date, one dated after the as-of date), and with seven rows dated
    2024-05-01 to 2024-05-06 (all within the dates of the query, the last
    date twice), the script counts 7 rows of the month number 5, builds the
    text 2024-5-0 from [today.day-6] and raises [TypeError], where the claim
    has a value. *)
Lemma C3_counterexample :
  ((List.length (month_to_date may_20 (DataFrame [])) < 7)%nat
   /\ (data <- load [] ;; total_7roi_calculator data may_20)%py = Raise KeyError)
  /\ strftime may_6 = (2024, 5, 6)
  /\ (let res := newest_first flat_row (may_6 + 1) 7 in
      distinct_dates res = true
      /\ Feed.all_queried may_6 res = false
      /\ (data <- load res ;; total_7roi_calculator data may_6)%py = Raise TypeError)
  /\ (let res := flat_row may_6 :: newest_first flat_row may_6 6 in
      distinct_dates res = false
      /\ Feed.all_queried may_6 res = true
      /\ (data <- load res ;; total_7roi_calculator data may_6)%py = Raise TypeError).
Proof.
  cbv zeta.
  split; [split; [vm_compute; apply le_n_S, le_0_n | reflexivity] |].
  split; [vm_compute; reflexivity |].
  split; (split; [vm_compute; reflexivity |]);
    (split; [vm_compute; reflexivity |]);
    cbn [load newest_first map seq bind];
    apply total_7roi_early_in_month; vm_compute; (apply le_n || reflexivity).
Qed.

(** On 2024-05-20, with 28 flat days: the 14 rows dated up to 2024-05-14 give
    1260 over 14000, and 0.09 after the rounding. *)
Example total_7roi_may_20 :
  total_7roi_calculator (DataFrame (newest_first flat_row may_20 28)) may_20
  = Return (decimal 9 100).
Proof. vm_compute. reflexivity. Qed.

Lemma month_number_witness :
  to_datetime (first_day_of_month may_20) = Some (may_20 - day may_20 + 1)
  /\ this_month_data (DataFrame (newest_first flat_row may_20 28)) may_20
     = rows_in (may_20 - day may_20 + 1) may_20 (DataFrame (newest_first flat_row may_20 28)).
Proof.
  apply (month_number_picks_month_to_date (newest_first flat_row may_20 28) may_20).
  vm_compute. reflexivity.
Defined.

(** ** The text of a date *)

(** X4: the text the script prints for a date and the date pandas reads from
    a text are inverse of each other: the text of a day parses to that day,
    and a text that parses prints back as itself; so the rows the table loop
    selects with [index_day] are exactly the rows of [index_date]. *)
Theorem date_text_round_trip (t : Z) (s : datestr) (data : indexed row) :
  to_datetime (strftime t) = Some t
  /\ (to_datetime s = Some t -> strftime t = s)
  /\ on_day data (strftime t) = select (fun r => end_date r =? t) data.
Proof.
  split; [apply to_datetime_strftime |].
  split; [| apply on_day_strftime].
  destruct s as [[y m] d]. unfold to_datetime.
  destruct ((1 <=? m) && (m <=? 12) && (1 <=? d) && (d <=? days_in_month y m)) eqn:Hv;
    [| discriminate].
  intros [= <-].
  repeat (apply andb_true_iff in Hv; destruct Hv as [Hv ?]).
  unfold strftime. rewrite <- civil_eq.
  apply civil_of_valid; lia.
Qed.

(** ** The weekly table, whatever the feed *)

Lemma one_row_outcome (data : indexed row) (today : Z) (i : nat) :
  one_row data today i = Raise KeyError \/ exists r, one_row data today i = Return r.
Proof.
  rewrite one_row_observed. unfold observed, at_label.
  destruct (find _ _); cbn [bind]; [right; eexists; reflexivity | now left].
Qed.

Lemma table_loop_outcome (data : indexed row) (today : Z) (range : list nat) :
  forall acc,
    table_loop data today range acc = Raise KeyError
    \/ exists tbl, table_loop data today range acc = Return tbl
                   /\ List.length tbl = (List.length acc + List.length range)%nat.
Proof.
  induction range as [| i range IH]; intros acc; cbn [table_loop List.length].
  - right. exists acc. split; [reflexivity | lia].
  - destruct (one_row_outcome data today i) as [-> | (r & ->)]; [now left |].
    destruct (IH (acc ++ [r])) as [Hk | (tbl & Ht & Hlen)]; [now left | right].
    exists tbl. split; [exact Ht |].
    rewrite Hlen, length_app. cbn [List.length]. lia.
Qed.

Lemma position_ok_iff (res : list row) (today : Z) (k : nat) :
  Feed.position_ok res today k = true <->
  exists r, nth_error res k = Some r /\ end_date r = today - Z.of_nat k.
Proof.
  unfold Feed.position_ok. split.
  - destruct (nth_error res k) as [r |]; [| discriminate].
    intros H. exists r. split; [reflexivity | now apply Z.eqb_eq].
  - intros (r & -> & H). now apply Z.eqb_eq.
Qed.

Lemma table_made_of_rows (data : indexed row) (today : Z) (range : list nat) :
  (forall i, In i range -> exists r, one_row data today i = Return r) ->
  forall acc, exists tbl, table_loop data today range acc = Return tbl.
Proof.
  induction range as [| i range IH]; intros Hall acc; cbn [table_loop].
  - now exists acc.
  - destruct (Hall i (or_introl eq_refl)) as (r & ->).
    apply IH. intros j Hj. apply Hall. now right.
Qed.

(** X5: the loop of the weekly table ends in one of two ways, whatever the
    frame: a table of exactly 7 lines, or [KeyError] (no other exception, no
    shorter table). On the frame made of a feed it is [KeyError] exactly when,
    for some k from 1 to 7, the row at the position k of the feed is missing
    or is not the row dated k days before today. *)
Theorem weekly_table_or_KeyError (data : indexed row) (res : list row) (today : Z) :
  (my_table data today = Raise KeyError
   \/ exists tbl, my_table data today = Return tbl /\ List.length tbl = 7%nat)
  /\ (my_table (DataFrame res) today = Raise KeyError <->
      forallb (Feed.position_ok res today) (seq 1 7) = false).
Proof.
  split.
  { unfold my_table.
    destruct (table_loop_outcome data today (seq 0 7) []) as [H | (tbl & H & Hlen)];
      [now left | right].
    now exists tbl. }
  split.
  - intros Hraise.
    destruct (forallb (Feed.position_ok res today) (seq 1 7)) eqn:Hall; [| reflexivity].
    exfalso.
    rewrite forallb_forall in Hall.
    destruct (table_made_of_rows (DataFrame res) today (seq 0 7)) with (acc := @nil table_row)
      as (tbl & Htbl).
    + intros i Hi. apply in_seq in Hi.
      destruct (feed_order_row res today) with (i := i) as (r & Hr & _); [| lia | now exists r].
      intros k Hk. apply position_ok_iff. apply Hall. apply in_seq. lia.
    + unfold my_table in Hraise. congruence.
  - intros Hbad.
    destruct (table_loop_outcome (DataFrame res) today (seq 0 7) []) as [H | (tbl & H & _)];
      [exact H | exfalso].
    assert (Hall : forallb (Feed.position_ok res today) (seq 1 7) = true).
    { apply forallb_forall. intros k Hk. apply in_seq in Hk.
      apply position_ok_iff.
      apply (weekly_table_needs_feed_order res today tbl H). lia. }
    congruence.
Qed.

(** The windows of the last line of the table are the windows of the summary. *)
Lemma last_line_windows (data : indexed row) (today : Z) :
  index_three_one_window data today 6 = three_one_window data today
  /\ index_seven_three_window data today 6 = seven_three_window data today.
Proof.
  split; apply select_ext; intros r; cbn [Nat.sub Z.of_nat Pos.of_succ_nat];
    repeat f_equal.
Qed.

(** X6: for the last line of the table (the day before today) the two
    coefficients of the line are the two coefficients of the summary, so its
    3-day and 7-day cells are the observed [roi_1] of that day times the
    summary's [three_one_coefficient], and that times the summary's
    [seven_three_coefficient]. *)
Theorem last_line_uses_summary_coefficients (data : indexed row) (today : Z)
  (tbl : list table_row) (r : table_row) :
  my_table data today = Return tbl ->
  nth_error tbl 6 = Some r ->
  index_three_one_coefficient data today 6 = three_one_coefficient data today
  /\ index_seven_three_coefficient data today 6 = seven_three_coefficient data today
  /\ exists obs,
       observed data (today - 1) 1 = Return obs
       /\ cell_3roi r = fmul (roi_1 obs) (three_one_coefficient data today)
       /\ cell_7roi r = fmul (fmul (roi_1 obs) (three_one_coefficient data today))
                             (seven_three_coefficient data today).
Proof.
  intros Htbl Hnth.
  destruct (last_line_windows data today) as [W31 W73].
  assert (E31 : index_three_one_coefficient data today 6 = three_one_coefficient data today).
  { unfold index_three_one_coefficient, three_one_coefficient. now rewrite W31. }
  assert (E73 : index_seven_three_coefficient data today 6
                = seven_three_coefficient data today).
  { unfold index_seven_three_coefficient, seven_three_coefficient. now rewrite W73. }
  split; [exact E31 |]. split; [exact E73 |].
  unfold my_table in Htbl. apply table_loop_rows in Htbl.
  destruct Htbl as (rows & HF & ->). cbn [app] in Hnth.
  destruct (Forall2_nth_error_l _ _ _ HF 6%nat r Hnth) as (j & Hj & Hrow).
  apply nth_error_seq_0 in Hj. destruct Hj as [-> _].
  rewrite one_row_observed, E31, E73 in Hrow.
  unfold row_date in Hrow. cbn [Nat.sub Z.of_nat Pos.of_succ_nat] in Hrow.
  destruct (observed data (today - 1) 1) as [obs | e]; cbn [bind] in Hrow; [| discriminate].
  replace (today - 1 <=? today - 2) with false in Hrow by (symmetry; apply Z.leb_gt; lia).
  replace (today - 1 <=? today - 6) with false in Hrow by (symmetry; apply Z.leb_gt; lia).
  injection Hrow as <-.
  exists obs. repeat split.
Qed.

(** X7: which cells of the table are estimates. The 3-day cell is the
    observed [roi_3] on the first six lines and an estimate on the last one
    only; the 7-day cell is the observed [roi_7] on the first two lines and
    an estimate on the five others. So the first two lines hold observed
    values only. *)
Theorem estimated_cells (data : indexed row) (today : Z)
  (tbl : list table_row) (i : nat) (r : table_row) :
  my_table data today = Return tbl ->
  nth_error tbl i = Some r ->
  exists obs,
    observed data (row_date today i) (7 - i) = Return obs
    /\ cell_1roi r = roi_1 obs
    /\ ((i <= 5)%nat -> cell_3roi r = roi_3 obs)
    /\ (i = 6%nat ->
        cell_3roi r = fmul (roi_1 obs) (index_three_one_coefficient data today i))
    /\ ((i <= 1)%nat -> cell_7roi r = roi_7 obs)
    /\ ((2 <= i <= 6)%nat ->
        cell_7roi r = fmul (fmul (roi_1 obs) (index_three_one_coefficient data today i))
                           (index_seven_three_coefficient data today i))
    /\ (i <= 6)%nat.
Proof.
  intros Htbl Hnth.
  unfold my_table in Htbl. apply table_loop_rows in Htbl.
  destruct Htbl as (rows & HF & ->). cbn [app] in Hnth.
  destruct (Forall2_nth_error_l _ _ _ HF i r Hnth) as (j & Hj & Hrow).
  apply nth_error_seq_0 in Hj. destruct Hj as [-> Hi].
  rewrite one_row_observed in Hrow.
  destruct (observed data (row_date today i) (7 - i)) as [obs | e]; cbn [bind] in Hrow;
    [| discriminate].
  injection Hrow as <-. cbn [cell_1roi cell_3roi cell_7roi].
  exists obs. split; [reflexivity |]. split; [reflexivity |].
  unfold row_date.
  repeat split.
  - intros H5. now replace (today - Z.of_nat (7 - i) <=? today - 2) with true
      by (symmetry; apply Z.leb_le; lia).
  - intros H6. now replace (today - Z.of_nat (7 - i) <=? today - 2) with false
      by (symmetry; apply Z.leb_gt; lia).
  - intros H1. now replace (today - Z.of_nat (7 - i) <=? today - 6) with true
      by (symmetry; apply Z.leb_le; lia).
  - intros H2. now replace (today - Z.of_nat (7 - i) <=? today - 6) with false
      by (symmetry; apply Z.leb_gt; lia).
  - lia.
Qed.

Lemma last_line_witness :
  let data := DataFrame (newest_first flat_row may_20 28) in
  let r := nth 6 may_20_table (mkTableRow (0, 0) NaN 0 NaN NaN NaN) in
  index_three_one_coefficient data may_20 6 = three_one_coefficient data may_20
  /\ index_seven_three_coefficient data may_20 6 = seven_three_coefficient data may_20
  /\ exists obs,
       observed data (may_20 - 1) 1 = Return obs
       /\ cell_3roi r = fmul (roi_1 obs) (three_one_coefficient data may_20)
       /\ cell_7roi r = fmul (fmul (roi_1 obs) (three_one_coefficient data may_20))
                             (seven_three_coefficient data may_20).
Proof.
  apply (last_line_uses_summary_coefficients
           (DataFrame (newest_first flat_row may_20 28)) may_20 may_20_table);
    vm_compute; reflexivity.
Defined.

Lemma estimated_cells_witness :
  let data := DataFrame (newest_first flat_row may_20 28) in
  let r := nth 1 may_20_table (mkTableRow (0, 0) NaN 0 NaN NaN NaN) in
  exists obs,
    observed data (row_date may_20 1) (7 - 1) = Return obs
    /\ cell_1roi r = roi_1 obs
    /\ ((1 <= 5)%nat -> cell_3roi r = roi_3 obs)
    /\ (1%nat = 6%nat ->
        cell_3roi r = fmul (roi_1 obs) (index_three_one_coefficient data may_20 1))
    /\ ((1 <= 1)%nat -> cell_7roi r = roi_7 obs)
    /\ ((2 <= 1 <= 6)%nat ->
        cell_7roi r = fmul (fmul (roi_1 obs) (index_three_one_coefficient data may_20 1))
                           (index_seven_three_coefficient data may_20 1))
    /\ (1 <= 6)%nat.
Proof.
  apply (estimated_cells (DataFrame (newest_first flat_row may_20 28)) may_20 may_20_table);
    vm_compute; reflexivity.
Defined.

(** ** When the 7-day ROI of the summary raises *)

(** X9: [total_7roi_calculator] raises exactly when the month has 7 rows or
    more and today is before the 7th of the month (the text made of
    [today.day-6] is then no date), and what it raises is [TypeError]; in
    every other case it returns a value. *)
Theorem total_7roi_raises_iff (data : indexed row) (today : Z) :
  (total_7roi_calculator data today = Raise TypeError <->
   (7 <= List.length (this_month_data data today))%nat /\ day today < 7)
  /\ (forall e, total_7roi_calculator data today = Raise e -> e = TypeError)
  /\ ((List.length (this_month_data data today) < 7)%nat \/ 7 <= day today ->
      exists x, total_7roi_calculator data today = Return x).
Proof.
  destruct (Nat.ltb_spec (List.length (this_month_data data today)) 7) as [Hfew | Hmany].
  - rewrite (total_7roi_few_rows data today Hfew).
    split; [split; [discriminate | lia] |].
    split; [discriminate | intros _; eexists; reflexivity].
  - destruct (Z.lt_ge_cases (day today) 7) as [Hearly | Hlate].
    + rewrite (total_7roi_early_in_month data today Hmany Hearly).
      split; [split; [intros _; split; [exact Hmany | exact Hearly] | reflexivity] |].
      split; [now intros e [= <-] | intros [H | H]; lia].
    + rewrite (total_7roi_mature data today Hmany Hlate).
      split; [split; [discriminate | lia] |].
      split; [discriminate | intros _; eexists; reflexivity].
Qed.

(** ** More of the client *)

Import Wire Main.
Open Scope string_scope.

Lemma send_markdown_list (srv : server) (self : DingTalkBot) (title text : string)
  (mobiles : list string) (b : bool) :
  mobiles <> [] ->
  send_markdown srv self title text (AList mobiles) b
  = deliver srv self
      (JDict [("msgtype", JStr "markdown");
              ("markdown", JDict [("title", JStr title);
                                  ("text", JStr (text ++ mention_text " @" mobiles))]);
              ("at", JDict [("atMobiles", JList (map JStr mobiles));
                            ("isAtAll", JBool false)])]).
Proof.
  intros Hne. unfold send_markdown.
  destruct mobiles as [| m ms]; [contradiction |].
  cbn [truthy]. now rewrite append_mentions.
Qed.

(** X10: [send_markdown] with a non-empty list of mobiles posts a payload whose
    markdown text is the given text followed by a space, @ and the number for
    each mobile in order (with a space, where [send_text] has none), whose
    title is the given title, whose [atMobiles] is the list and whose
    [isAtAll] is false. *)
Theorem markdown_mentions (srv : server) (self : DingTalkBot) (title text : string)
  (mobiles : list string) (is_at_all : bool) (sent : list http_request) :
  mobiles <> [] ->
  exists payload,
    snd (send_markdown srv self title text (AList mobiles) is_at_all sent)
    = (sent ++ [post_of self payload])%list
    /\ at_path ["markdown"; "text"] payload
       = Some (JStr (text ++ mention_text " @" mobiles))
    /\ at_path ["markdown"; "title"] payload = Some (JStr title)
    /\ at_path ["at"; "atMobiles"] payload = Some (JList (map JStr mobiles))
    /\ at_path ["at"; "isAtAll"] payload = Some (JBool false).
Proof.
  intros Hne.
  rewrite send_markdown_list by exact Hne.
  rewrite deliver_verdict. cbn [snd].
  eexists. split; [reflexivity |].
  repeat split.
Qed.

Lemma markdown_mentions_witness :
  exists payload,
    snd (send_markdown accepting plain_bot "t" "**hi**" (AList ["13800000000"; "13900000000"])
           true [])
    = [post_of plain_bot payload]
    /\ at_path ["markdown"; "text"] payload
       = Some (JStr "**hi** @13800000000 @13900000000")
    /\ at_path ["markdown"; "title"] payload = Some (JStr "t")
    /\ at_path ["at"; "atMobiles"] payload
       = Some (JList [JStr "13800000000"; JStr "13900000000"])
    /\ at_path ["at"; "isAtAll"] payload = Some (JBool false).
Proof.
  apply (markdown_mentions accepting plain_bot "t" "**hi**"
           ["13800000000"; "13900000000"] true []).
  discriminate.
Defined.

(** X11: with a non-empty list of mobiles, [is_at_all] has no effect: the
    three methods that take it do the same with [True] as with [False] (the
    payload says [isAtAll] false); with no mobiles it is what the payload
    says. *)
Theorem is_at_all_dropped_with_mobiles (srv : server) (self : DingTalkBot)
  (mobiles : list string) (sent : list http_request) :
  mobiles <> [] ->
  (forall title content,
      send_text srv self title content (AList mobiles) true sent
      = send_text srv self title content (AList mobiles) false sent)
  /\ (forall title text,
      send_markdown srv self title text (AList mobiles) true sent
      = send_markdown srv self title text (AList mobiles) false sent)
  /\ (forall image,
      send_image srv self image (AList mobiles) true sent
      = send_image srv self image (AList mobiles) false sent)
  /\ (forall title content b,
      exists payload,
        snd (send_text srv self title content ANone b sent)
        = (sent ++ [post_of self payload])%list
        /\ at_path ["at"; "isAtAll"] payload = Some (JBool b)).
Proof.
  intros Hne.
  split; [intros; now rewrite !send_text_list by exact Hne |].
  split; [intros; now rewrite !send_markdown_list by exact Hne |].
  split; [intros; now rewrite !send_image_list by exact Hne |].
  intros title content b. unfold send_text. cbn [truthy].
  unfold and_then at 1. cbn [ret]. rewrite deliver_verdict. cbn [snd].
  eexists. split; reflexivity.
Qed.

Lemma is_at_all_dropped_witness :
  (forall title content,
      send_text accepting plain_bot title content (AList ["13800000000"]) true []
      = send_text accepting plain_bot title content (AList ["13800000000"]) false [])
  /\ (forall title text,
      send_markdown accepting plain_bot title text (AList ["13800000000"]) true []
      = send_markdown accepting plain_bot title text (AList ["13800000000"]) false [])
  /\ (forall image,
      send_image accepting plain_bot image (AList ["13800000000"]) true []
      = send_image accepting plain_bot image (AList ["13800000000"]) false [])
  /\ (forall title content b,
      exists payload,
        snd (send_text accepting plain_bot title content ANone b [])
        = ([] ++ [post_of plain_bot payload])%list
        /\ at_path ["at"; "isAtAll"] payload = Some (JBool b)).
Proof.
  apply (is_at_all_dropped_with_mobiles accepting plain_bot ["13800000000"] []).
  discriminate.
Defined.

(** ** The signature on the wire *)

Lemma be_bytes_are_bytes (n : nat) (x : Z) : forallb is_byte (be_bytes n x) = true.
Proof.
  induction n as [| n IH]; cbn [be_bytes forallb]; [reflexivity |].
  rewrite IH, andb_true_r. unfold is_byte.
  pose proof (Z.mod_pos_bound (x / 256 ^ Z.of_nat n) 256 ltac:(lia)) as Hb.
  apply andb_true_iff. split; [apply Z.leb_le | apply Z.ltb_lt]; lia.
Qed.

Lemma sha256_bytes (msg : list Z) : forallb is_byte (sha256 msg) = true.
Proof.
  unfold sha256.
  apply forallb_forall. intros b Hb.
  apply in_flat_map in Hb. destruct Hb as (w & _ & Hb).
  pose proof (be_bytes_are_bytes 4 w) as Hall.
  rewrite forallb_forall in Hall. now apply Hall.
Qed.

Lemma b64_char_in_alphabet (i : Z) : (0 <= i < 64)%Z -> is_b64 (b64_char i) = true.
Proof.
  intros Hi.
  assert (Hall : forallb (fun n => is_b64 (b64_char (Z.of_nat n))) (seq 0 64) = true)
    by (vm_compute; reflexivity).
  rewrite forallb_forall in Hall.
  rewrite <- (Z2Nat.id i) by lia.
  apply Hall. apply in_seq. lia.
Qed.

Lemma b64encode_alphabet (n : nat) :
  forall bs, (List.length bs <= n)%nat -> forallb is_byte bs = true ->
             forallb is_b64 (chars (b64encode bs)) = true.
Proof.
  induction n as [n IH] using (well_founded_induction Wf_nat.lt_wf).
  intros bs Hlen Hb.
  destruct bs as [| a [| b [| c rest]]]; cbn [b64encode chars list_ascii_of_string forallb].
  - reflexivity.
  - cbn [forallb] in Hb. rewrite andb_true_r in Hb.
    unfold is_byte in Hb. apply andb_true_iff in Hb. destruct Hb as [Ha1 Ha2].
    apply Z.leb_le in Ha1. apply Z.ltb_lt in Ha2.
    rewrite !b64_char_in_alphabet by (Z.div_mod_to_equations; lia).
    reflexivity.
  - cbn [forallb] in Hb. rewrite andb_true_r in Hb.
    apply andb_true_iff in Hb. destruct Hb as [Ha Hb].
    unfold is_byte in Ha, Hb.
    apply andb_true_iff in Ha, Hb. destruct Ha as [Ha1 Ha2], Hb as [Hb1 Hb2].
    apply Z.leb_le in Ha1, Hb1. apply Z.ltb_lt in Ha2, Hb2.
    rewrite !b64_char_in_alphabet by (Z.div_mod_to_equations; lia).
    reflexivity.
  - cbn [forallb] in Hb.
    apply andb_true_iff in Hb. destruct Hb as [Ha Hb].
    apply andb_true_iff in Hb. destruct Hb as [Hb Hc].
    apply andb_true_iff in Hc. destruct Hc as [Hc Hrest].
    unfold is_byte in Ha, Hb, Hc.
    apply andb_true_iff in Ha, Hb, Hc.
    destruct Ha as [Ha1 Ha2], Hb as [Hb1 Hb2], Hc as [Hc1 Hc2].
    apply Z.leb_le in Ha1, Hb1, Hc1. apply Z.ltb_lt in Ha2, Hb2, Hc2.
    rewrite !b64_char_in_alphabet by (Z.div_mod_to_equations; lia).
    cbn [andb].
    cbn [List.length] in Hlen.
    apply (IH (List.length rest)); [lia | lia | exact Hrest].
Qed.

Lemma quoted_char (c : ascii) :
  is_b64 c = true ->
  (unreserved c = true /\ url_safe c = true)
  \/ (unreserved c = false
      /\ (Z.of_nat (nat_of_ascii c) =? 32)%Z = false
      /\ url_safe (hex_digit (Z.of_nat (nat_of_ascii c) / 16)) = true
      /\ url_safe (hex_digit (Z.of_nat (nat_of_ascii c) mod 16)) = true).
Proof.
  destruct c as [[] [] [] [] [] [] [] []]; vm_compute;
    first [ intros H; discriminate H
          | intros _; left; split; reflexivity
          | intros _; right; repeat split; reflexivity ].
Qed.

Lemma quote_plus_url_safe (s : string) :
  forallb is_b64 (chars s) = true -> forallb url_safe (chars (quote_plus s)) = true.
Proof.
  induction s as [| c s IH]; cbn [chars list_ascii_of_string forallb quote_plus];
    [reflexivity |].
  intros H. apply andb_true_iff in H. destruct H as [Hc Hs].
  specialize (IH Hs).
  destruct (quoted_char c Hc) as [[Hu Hsafe] | (Hu & Hsp & Hhi & Hlo)]; rewrite Hu.
  - cbn [list_ascii_of_string forallb]. now rewrite Hsafe.
  - rewrite Hsp. cbn [list_ascii_of_string forallb].
    rewrite Hhi, Hlo. exact IH.
Qed.

(** X12: whatever the secret and the timestamp, every character of the
    signature [get_sign] returns is a letter, a digit, one of [_ . - ~] or a
    percent sign: it has no [&], [=], [+], [/] or space, so it goes into the
    query string of the webhook URL as it is. *)
Theorem get_sign_is_url_safe (secret timestamp : string) :
  forallb url_safe (chars (get_sign secret timestamp)) = true.
Proof.
  unfold get_sign.
  apply quote_plus_url_safe.
  apply (b64encode_alphabet _ _ (le_n _)).
  unfold hmac_sha256. apply sha256_bytes.
Qed.

Lemma length_append (a b : string) :
  String.length (a ++ b) = (String.length a + String.length b)%nat.
Proof. induction a as [| c a IH]; cbn; [reflexivity | now rewrite IH]. Qed.

(** X13: the client uses the webhook URL as it was given exactly when the
    secret is absent or the empty string; with any other secret the URL is
    longer (it is signed). *)
Theorem unsigned_iff_no_secret (time_time : Q) (secret : option string) (url : string) :
  webhook_url (init time_time secret url) = url <-> secret = None \/ secret = Some "".
Proof.
  split.
  - destruct secret as [s |]; [| now left].
    intros H. right. f_equal.
    destruct (String.eqb_spec s "") as [-> | Hne]; [reflexivity | exfalso].
    unfold init in H. apply String.eqb_neq in Hne. rewrite Hne in H.
    cbn [negb webhook_url] in H.
    apply (f_equal String.length) in H.
    rewrite length_append in H. cbn in H. lia.
  - intros [-> | ->]; reflexivity.
Qed.

(** ** The two messages of a robot, and the two robots *)

Lemma verdict_of_object (srv : server) :
  answers_objects srv -> forall rq, exists b, verdict (srv rq) = Return b.
Proof.
  intros Hsrv rq. destruct (Hsrv rq) as (kv & ->). cbn. eexists. reflexivity.
Qed.

(** X14: when the server answers every request with a JSON object, whatever
    its [errcode], the script makes four POSTs in this order: the text
    message and the markdown message to the first robot, then the same two to
    the second robot, each robot at its own signed URL. A rejected message
    (a non-zero [errcode]) stops nothing. *)
Theorem main_posts_four (srv : server) (t1 t2 : Q) (secret1 url1 secret2 url2 : string)
  (content df_link trend_link : string) (sent : list http_request) :
  answers_objects srv ->
  exists p1 p2,
    main srv (t1, secret1, url1) (t2, secret2, url2) content df_link trend_link sent
    = (Return tt,
       (sent ++ [post_of (init t1 (Some secret1) url1) p1;
                 post_of (init t1 (Some secret1) url1) p2;
                 post_of (init t2 (Some secret2) url2) p1;
                 post_of (init t2 (Some secret2) url2) p2])%list)
    /\ at_path ["msgtype"] p1 = Some (JStr "text")
    /\ at_path ["text"; "content"] p1 = Some (JStr content)
    /\ at_path ["msgtype"] p2 = Some (JStr "markdown")
    /\ at_path ["markdown"; "text"] p2 = Some (JStr (markdown_text df_link trend_link)).
Proof.
  intros Hsrv.
  unfold main, notify, send_text, send_markdown. cbn [truthy].
  set (bot1 := init t1 (Some secret1) url1).
  set (bot2 := init t2 (Some secret2) url2).
  do 2 eexists. split.
  - repeat (unfold and_then at 1; cbn [ret];
            try (rewrite deliver_verdict;
                 match goal with
                 | |- context [verdict (srv ?rq)] =>
                     destruct (verdict_of_object srv Hsrv rq) as (? & ->)
                 end)).
    rewrite <- !app_assoc. reflexivity.
  - repeat split.
Qed.

Lemma main_posts_four_witness :
  exists p1 p2,
    main accepting (1700000000%Q, "SECabc", "https://oapi.dingtalk.com/robot/send?access_token=a")
         (1700000001%Q, "SECxyz", "https://oapi.dingtalk.com/robot/send?access_token=b")
         "Cost: 1" "https://i.imgur.com/a.png" "https://i.imgur.com/b.png" []
    = (Return tt,
       ([] ++ [post_of (init 1700000000 (Some "SECabc")
                          "https://oapi.dingtalk.com/robot/send?access_token=a") p1;
               post_of (init 1700000000 (Some "SECabc")
                          "https://oapi.dingtalk.com/robot/send?access_token=a") p2;
               post_of (init 1700000001 (Some "SECxyz")
                          "https://oapi.dingtalk.com/robot/send?access_token=b") p1;
               post_of (init 1700000001 (Some "SECxyz")
                          "https://oapi.dingtalk.com/robot/send?access_token=b") p2])%list)
    /\ at_path ["msgtype"] p1 = Some (JStr "text")
    /\ at_path ["text"; "content"] p1 = Some (JStr "Cost: 1")
    /\ at_path ["msgtype"] p2 = Some (JStr "markdown")
    /\ at_path ["markdown"; "text"] p2
       = Some (JStr (markdown_text "https://i.imgur.com/a.png" "https://i.imgur.com/b.png")).
Proof.
  apply (main_posts_four accepting 1700000000 1700000001
           "SECabc" "https://oapi.dingtalk.com/robot/send?access_token=a"
           "SECxyz" "https://oapi.dingtalk.com/robot/send?access_token=b").
  intros rq. eexists. reflexivity.
Defined.

(** X15: when the answer to a message makes the send method raise (a body
    that is no JSON, a JSON value that is no object, no answer at all), the
    script stops there: one POST has been made, to the first robot, and
    neither the markdown message nor the second robot is reached. *)
Theorem main_stops_at_first_raise (srv : server) (e : exn) (t1 t2 : Q)
  (secret1 url1 secret2 url2 : string) (content df_link trend_link : string)
  (sent : list http_request) :
  always srv (Raise e) ->
  exists p1,
    main srv (t1, secret1, url1) (t2, secret2, url2) content df_link trend_link sent
    = (Raise e, (sent ++ [post_of (init t1 (Some secret1) url1) p1])%list)
    /\ at_path ["msgtype"] p1 = Some (JStr "text").
Proof.
  intros Hsrv.
  unfold main, notify, send_text. cbn [truthy].
  eexists. split.
  - unfold and_then at 1. unfold and_then at 1. unfold and_then at 1.
    unfold and_then at 1. cbn [ret].
    rewrite deliver_verdict, Hsrv. reflexivity.
  - reflexivity.
Qed.

Lemma main_stops_witness :
  exists p1,
    main bad_gateway (1700000000%Q, "SECabc", "https://oapi.dingtalk.com/robot/send?access_token=a")
         (1700000001%Q, "SECxyz", "https://oapi.dingtalk.com/robot/send?access_token=b")
         "Cost: 1" "https://i.imgur.com/a.png" "https://i.imgur.com/b.png" []
    = (Raise JSONDecodeError,
       ([] ++ [post_of (init 1700000000 (Some "SECabc")
                          "https://oapi.dingtalk.com/robot/send?access_token=a") p1])%list)
    /\ at_path ["msgtype"] p1 = Some (JStr "text").
Proof.
  apply (main_stops_at_first_raise bad_gateway JSONDecodeError 1700000000 1700000001
           "SECabc" "https://oapi.dingtalk.com/robot/send?access_token=a"
           "SECxyz" "https://oapi.dingtalk.com/robot/send?access_token=b").
  intros rq. reflexivity.
Defined.

(** ** Buttons and links with missing keys *)

Lemma dict_get_missing (kv : list (string * json)) (key : string) :
  (forall v, ~ In (key, v) kv) -> dict_get kv key = JNull.
Proof.
  intros Hno. unfold dict_get.
  destruct (find _ kv) as [[k v] |] eqn:Hf; [exfalso | reflexivity].
  apply find_some in Hf. destruct Hf as [Hin Hk]. cbn [fst] in Hk.
  apply String.eqb_eq in Hk. subst k. now apply (Hno v).
Qed.

(** X16: [send_action_card_split] and [send_feed_card] never fail on the
    dicts they are given: they make their POST with one entry per button (per
    link), in the order given, built from the keys [title] and [action_url]
    (from [title], [messageURL] and [picURL]); a key that a dict does not
    have gives null in its entry, and any other key of the dict is left out. *)
Theorem card_entries (srv : server) (self : DingTalkBot) (title text : string)
  (btns links_msg : list (list (string * json))) (btn_orientation : Z)
  (sent : list http_request) :
  exists card feed entries links,
    snd (send_action_card_split srv self title text btns btn_orientation sent)
    = (sent ++ [post_of self card])%list
    /\ snd (send_feed_card srv self links_msg sent) = (sent ++ [post_of self feed])%list
    /\ at_path ["actionCard"; "btns"] card = Some (JList entries)
    /\ at_path ["feedCard"; "links"] feed = Some (JList links)
    /\ List.length entries = List.length btns
    /\ List.length links = List.length links_msg
    /\ (forall i btn, nth_error btns i = Some btn ->
          nth_error entries i
          = Some (JDict [("title", dict_get btn "title");
                         ("actionURL", dict_get btn "action_url")]))
    /\ (forall i link, nth_error links_msg i = Some link ->
          nth_error links i
          = Some (JDict [("title", dict_get link "title");
                         ("messageURL", dict_get link "messageURL");
                         ("picURL", dict_get link "picURL")]))
    /\ (forall d key, (forall v, ~ In (key, v) d) -> dict_get d key = JNull).
Proof.
  unfold send_action_card_split, send_feed_card.
  rewrite !deliver_verdict. cbn [snd].
  do 4 eexists.
  split; [reflexivity |]. split; [reflexivity |].
  split; [reflexivity |]. split; [reflexivity |].
  split; [apply length_map |]. split; [apply length_map |].
  split; [intros i btn Hi; now rewrite nth_error_map, Hi |].
  split; [intros i link Hi; now rewrite nth_error_map, Hi |].
  apply dict_get_missing.
Qed.
